(** * sudns01: the stub DNS resolver client ([sudns01/clients/resolver.py])

    A shallow embedding of [ResolverClient] and of the part of dnspython's
    data model that its methods read.  The resolution engine itself
    (dnspython's [Resolver.resolve] and [Resolver.resolve_name]) is an
    oracle: every method is defined for an arbitrary engine, and every
    engine call is recorded in a trace, so that statements can speak about
    how many queries were issued and for which names.

    Python exceptions are the [Err] results of the methods.  The calls to
    the logger are left out: they format their arguments and return, and
    no method reads what was logged.  The older [clients/resolver.py] has
    the same [get_ip] (it passes the lifetime with each call) and none of
    the other methods. *)

From Stdlib Require Import List String Ascii ZArith Bool Arith Lia.
From Stdlib Require Import Strings.Byte.
Import ListNotations.

(** ** Domain names ([dns.name.Name]) *)

Module DnsName.

(** A name is its tuple of labels, leftmost first.  An absolute name
    ends with the empty label of the root. *)
Definition Name := list string.

Definition root : Name := [""%string].
Definition empty : Name := [].

Definition eqb (a b : Name) : bool :=
  if list_eq_dec string_dec a b then true else false.

(** [Name.is_absolute]: [len(labels) > 0 and labels[-1] == b""]. *)
Definition is_absolute (n : Name) : bool :=
  match n with
  | [] => false
  | _ :: _ => String.eqb (last n "x"%string) ""%string
  end.

(** [Name.parent]: fails with [NoParent] on the root and on the empty
    name, and drops the leftmost label otherwise.  [None] is [NoParent]. *)
Definition parent (n : Name) : option Name :=
  if eqb n root || eqb n empty then None else Some (tl n).

End DnsName.

Import DnsName.

(** ** Records, messages and answers *)

Definition bytes := list byte.

Inductive RdataType := A | AAAA | CNAME | DNAME | NS | SOA | TXT.

Inductive RdataClass := IN.

Inductive AddressFamily := AF_UNSPEC | AF_INET | AF_INET6.

(** The payload of one record.  Only a TXT payload has a [strings]
    attribute. *)
Inductive Rdata :=
| RdAddress (address : string)
| RdTarget (target : Name)
| RdSOA (mname rname : Name) (serial : Z)
| RdTXT (strings : list bytes).

(** An RRset of a response section: an owner name, a type, and the
    payloads of its records.  dnspython creates an RRset in a section only
    when it parses a record into it, so there is a first payload:
    [rrset[0]] is [first], and iterating the RRset yields
    [first :: rest]. *)
Module RRset.
Record t := mk { name : Name; rdtype : RdataType; first : Rdata; rest : list Rdata }.
Definition items (rr : t) : list Rdata := first rr :: rest rr.
End RRset.

(** An entry of the question section: a name and a type, no payload. *)
Module Question.
Record t := mk { name : Name; rdtype : RdataType }.
End Question.

(** [dns.message.Message], the sections that the client reads. *)
Record Message := mkMessage {
  question : list Question.t;
  answer : list RRset.t;
  authority : list RRset.t
}.

(** [dns.resolver.Answer]: the response, and the RRset that answers the
    question ([None] when the response holds no record of the queried
    type). *)
Record Answer := mkAnswer {
  response : Message;
  rrset : option RRset.t
}.

(** [dns.resolver.HostAnswers]: the answer to the AAAA lookup under the
    key [v6] and the answer to the A lookup under the key [v4], each seen
    as the address strings of its records in the order of the server.  A
    key that is absent, or whose answer is empty, is the empty list. *)
Record HostAnswers := mkHostAnswers { v6 : list string; v4 : list string }.

(** [HostAnswers.addresses_and_families]: for [AF_UNSPEC] the pairs of
    [v6], then the pairs of [v4]; for one family the pairs of its key. *)
Definition addresses_and_families (h : HostAnswers) (family : AddressFamily)
    : list (string * AddressFamily) :=
  match family with
  | AF_UNSPEC =>
      map (fun address => (address, AF_INET6)) (v6 h) ++
      map (fun address => (address, AF_INET)) (v4 h)
  | AF_INET6 => map (fun address => (address, AF_INET6)) (v6 h)
  | AF_INET => map (fun address => (address, AF_INET)) (v4 h)
  end.

(** [HostAnswers.addresses], called without family as [get_ip] does:
    [pair[0]] for each pair of [addresses_and_families(AF_UNSPEC)]. *)
Definition addresses (h : HostAnswers) : list string :=
  map fst (addresses_and_families h AF_UNSPEC).

(** A query argument is typed [dns.name.Name | str]. *)
Inductive Query :=
| QName (n : Name)
| QStr (s : string).

(** The decoded shape of one TXT record: [bytes] or a tuple of [bytes]. *)
Inductive TextEntry :=
| Single (b : bytes)
| Multi (l : list bytes).

(** ** Exceptions *)

(** The failures of the engine (subclasses of [dns.exception.DNSException]). *)
Inductive DnsException :=
| NXDOMAIN
| NoAnswer
| NoNameservers
| LifetimeTimeout
| YXDOMAIN.

(** Which [raise ResolverErrorPermanent(...)] statement fired. *)
Inductive PermanentReason :=
| NxdomainFor (q : Query)
| YxdomainHappened
| NoSoaReceived (q : Query).

Inductive Exn :=
| ValueError (q : Query)
| ResolverError
| ResolverErrorPermanent (why : PermanentReason)
| ResolverErrorCDName (asked : list Question.t)
| IndexError
| AttributeError
| NoParent
| Uncaught (e : DnsException).

Inductive Result (A : Type) :=
| Ok (a : A)
| Err (e : Exn)
| OutOfFuel.

Arguments Ok {A} a.
Arguments Err {A} e.
Arguments OutOfFuel {A}.

Inductive Outcome (A : Type) :=
| Returns (a : A)
| Raises (e : DnsException).

Arguments Returns {A} a.
Arguments Raises {A} e.

(** ** Resolver configuration and construction *)

Definition RESOLVER_TIMEOUT : Z := 10.
Definition CACHE_CLEAN_INTERVAL : Z := 300.

(** [dns.resolver.Cache(cleaning_interval=...)]. *)
Record Cache := mkCache { cleaning_interval : Z }.

(** The attributes of a [dns.resolver.Resolver] that the constructor
    writes. *)
Record Resolver := mkResolver {
  cache : option Cache;
  retry_servfail : bool;
  lifetime : Z
}.

Definition set_cache (c : Cache) (r : Resolver) : Resolver :=
  mkResolver (Some c) (retry_servfail r) (lifetime r).
Definition set_retry_servfail (b : bool) (r : Resolver) : Resolver :=
  mkResolver (cache r) b (lifetime r).
Definition set_lifetime (z : Z) (r : Resolver) : Resolver :=
  mkResolver (cache r) (retry_servfail r) z.

Record ResolverClient := mkResolverClient {
  _resolver : Resolver;
  _resolver_nocache : Resolver
}.

(** [ResolverClient.__init__], statement by statement.  [fresh1] and
    [fresh2] are what the two calls [dns.resolver.Resolver(configure=True)]
    return.  The two assignments after the second construction write to
    [self._resolver] again. *)
Definition __init__ (fresh1 fresh2 : Resolver) : ResolverClient :=
  let r := fresh1 in
  let r := set_cache (mkCache CACHE_CLEAN_INTERVAL) r in
  let r := set_retry_servfail true r in
  let r := set_lifetime RESOLVER_TIMEOUT r in
  let rn := fresh2 in
  let r := set_retry_servfail true r in
  let r := set_lifetime RESOLVER_TIMEOUT r in
  mkResolverClient r rn.

(** dnspython's [Resolver.reset()] defaults: no cache, SERVFAIL not
    retried, a lifetime of 5 seconds. *)
Definition dnspython_fresh : Resolver := mkResolver None false 5.

(** ** Engine calls and the effect monad *)

Inductive EngineCall :=
| resolve_call (resolver : Resolver) (qname : Query) (rdclass : RdataClass)
    (rdtype : RdataType) (search raise_on_no_answer : bool)
| resolve_name_call (resolver : Resolver) (name : Query)
    (family : AddressFamily) (search : bool).

Definition Trace := list EngineCall.

(** A computation reads the calls made so far and returns a result and
    the extended trace. *)
Definition M (A : Type) := Trace -> Result A * Trace.

Definition ret {A} (a : A) : M A := fun tr => (Ok a, tr).
Definition raise {A} (e : Exn) : M A := fun tr => (Err e, tr).
Definition out_of_fuel {A} : M A := fun tr => (OutOfFuel, tr).
Definition lift {A} (r : Result A) : M A := fun tr => (r, tr).

Definition bind {A B} (m : M A) (k : A -> M B) : M B :=
  fun tr =>
    match m tr with
    | (Ok a, tr') => k a tr'
    | (Err e, tr') => (Err e, tr')
    | (OutOfFuel, tr') => (OutOfFuel, tr')
    end.

(** [try: m  except ...: h e]: the handler sees every exception and
    re-raises those that no clause matches. *)
Definition try_except {A} (m : M A) (h : Exn -> M A) : M A :=
  fun tr =>
    match m tr with
    | (Err e, tr') => h e tr'
    | other => other
    end.

Notation "x <- m ;; k" := (bind m (fun x => k))
  (at level 61, m at next level, right associativity).

(** [list(f(x) for x in l)]: left to right, the first failure wins. *)
Fixpoint map_result {A B} (f : A -> Result B) (l : list A) : Result (list B) :=
  match l with
  | [] => Ok []
  | x :: t =>
      match f x with
      | Ok y =>
          match map_result f t with
          | Ok ys => Ok (y :: ys)
          | Err e => Err e
          | OutOfFuel => OutOfFuel
          end
      | Err e => Err e
      | OutOfFuel => OutOfFuel
      end
  end.

(** ** The methods of [ResolverClient] *)

Definition is_cdname (t : RdataType) : bool :=
  match t with
  | CNAME | DNAME => true
  | _ => false
  end.

Definition is_soa (t : RdataType) : bool :=
  match t with
  | SOA => true
  | _ => false
  end.

(** The counting loop of [_check_has_cdname], with its guard
    [len(answer.response.answer) > 0].  The loop also logs each redirect
    with its type and [response_answer[0]], which an RRset always has. *)
Definition redirects_found (ans : Answer) : nat :=
  if 0 <? List.length (answer (response ans)) then
    fold_left
      (fun found response_answer =>
         if is_cdname (RRset.rdtype response_answer) then found + 1 else found)
      (answer (response ans)) 0
  else 0.

(** [ResolverClient._check_has_cdname]. *)
Definition _check_has_cdname (ans : Answer) (raise_on_cdname : bool) : Result bool :=
  if 0 <? redirects_found ans then
    if raise_on_cdname then Err (ResolverErrorCDName (question (response ans)))
    else Ok true
  else Ok false.

(** The [for] loop of [get_zone_name] over the Answer section: the owner
    of the first record of type SOA. *)
Fixpoint first_soa_owner (section : list RRset.t) : option Name :=
  match section with
  | [] => None
  | answer_record :: more =>
      if is_soa (RRset.rdtype answer_record) then Some (RRset.name answer_record)
      else first_soa_owner more
  end.

(** The guard [isinstance(query, dns.name.Name) and not query.is_absolute()]. *)
Definition not_a_fqdn (query : Query) : bool :=
  match query with
  | QName n => negb (is_absolute n)
  | QStr _ => false
  end.

(** [x.strings] for a record [x] of [reply.rrset]. *)
Definition strings_of (x : Rdata) : Result (list bytes) :=
  match x with
  | RdTXT strings => Ok strings
  | _ => Err AttributeError
  end.

(** [entries if len(entries) > 1 else entries[0]]. *)
Definition collapse (entries : list bytes) : Result TextEntry :=
  if 1 <? List.length entries then Ok (Multi entries)
  else
    match nth_error entries 0 with
    | Some e => Ok (Single e)
    | None => Err IndexError
    end.

(** The two comprehensions that end [get_txt], run on [reply.rrset]. *)
Definition decode_rrset (rr : RRset.t) : Result (list TextEntry) :=
  match map_result strings_of (RRset.items rr) with
  | Ok text_tuples => map_result collapse text_tuples
  | Err e => Err e
  | OutOfFuel => OutOfFuel
  end.

Section Methods.

(** The engine: what [resolve] and [resolve_name] do, given the calls
    made before.  A caching engine, or a changing network, answers the
    same call differently over time. *)
Variable resolve :
  Trace -> Resolver -> Query -> RdataClass -> RdataType -> bool -> bool ->
  Outcome Answer.
Variable resolve_name :
  Trace -> Resolver -> Query -> AddressFamily -> bool -> Outcome HostAnswers.

Definition do_resolve (resolver : Resolver) (qname : Query) (rdclass : RdataClass)
    (rdtype : RdataType) (search raise_on_no_answer : bool) : M Answer :=
  fun tr =>
    let tr' := tr ++ [resolve_call resolver qname rdclass rdtype search raise_on_no_answer] in
    match resolve tr resolver qname rdclass rdtype search raise_on_no_answer with
    | Returns a => (Ok a, tr')
    | Raises e => (Err (Uncaught e), tr')
    end.

Definition do_resolve_name (resolver : Resolver) (name : Query)
    (family : AddressFamily) (search : bool) : M HostAnswers :=
  fun tr =>
    let tr' := tr ++ [resolve_name_call resolver name family search] in
    match resolve_name tr resolver name family search with
    | Returns a => (Ok a, tr')
    | Raises e => (Err (Uncaught e), tr')
    end.

(** [self._resolver if cached is True else self._resolver_nocache]. *)
Definition pick (self : ResolverClient) (cached : bool) : Resolver :=
  if cached then _resolver self else _resolver_nocache self.

(** [ResolverClient.get_ip]. *)
Definition get_ip (self : ResolverClient) (query : Query)
    (cached ipv6 search : bool) : M (list string) :=
  let resolver := pick self cached in
  let family := if ipv6 then AF_UNSPEC else AF_INET in
  try_except
    (answers <- do_resolve_name resolver query family search ;;
     ret (addresses answers))
    (fun e =>
       match e with
       | Uncaught NXDOMAIN | Uncaught NoAnswer => ret []
       | Uncaught NoNameservers | Uncaught LifetimeTimeout => raise ResolverError
       | Uncaught YXDOMAIN => raise (ResolverErrorPermanent YxdomainHappened)
       | other => raise other
       end).

(** [ResolverClient.get_txt]. *)
Definition get_txt (self : ResolverClient) (query : Query)
    (cached search raise_on_cdname : bool) : M (list TextEntry) :=
  let resolver := pick self cached in
  fun tr =>
    match do_resolve resolver query IN TXT search false tr with
    | (Err (Uncaught NXDOMAIN), tr') => (Ok [], tr')
    | (Err (Uncaught NoNameservers), tr')
    | (Err (Uncaught LifetimeTimeout), tr') => (Err ResolverError, tr')
    | (Err (Uncaught YXDOMAIN), tr') =>
        (Err (ResolverErrorPermanent YxdomainHappened), tr')
    | (Err other, tr') => (Err other, tr')
    | (OutOfFuel, tr') => (OutOfFuel, tr')
    | (Ok reply, tr') =>
        (_ <- lift (_check_has_cdname reply raise_on_cdname) ;;
         match rrset reply with
         | None => ret []
         | Some rr => lift (decode_rrset rr)
         end) tr'
    end.

(** [ResolverClient.get_zone_name].  The method calls itself; [fuel]
    bounds the depth of that recursion. *)
Fixpoint get_zone_name (fuel : nat) (self : ResolverClient) (query : Query)
    (cached raise_on_cdname : bool) {struct fuel} : M Name :=
  match fuel with
  | 0 => out_of_fuel
  | S fuel' =>
      if not_a_fqdn query then raise (ValueError query)
      else
        let resolver := pick self cached in
        fun tr =>
          match do_resolve resolver query IN SOA false false tr with
          | (Err (Uncaught NXDOMAIN), tr') =>
              (Err (ResolverErrorPermanent (NxdomainFor query)), tr')
          | (Err (Uncaught NoNameservers), tr')
          | (Err (Uncaught LifetimeTimeout), tr') => (Err ResolverError, tr')
          | (Err (Uncaught YXDOMAIN), tr') =>
              (Err (ResolverErrorPermanent YxdomainHappened), tr')
          | (Err other, tr') => (Err other, tr')
          | (OutOfFuel, tr') => (OutOfFuel, tr')
          | (Ok ans, tr') =>
              match _check_has_cdname ans raise_on_cdname with
              | Err (ResolverErrorCDName asked) =>
                  if raise_on_cdname then (Err (ResolverErrorCDName asked), tr')
                  else
                    match nth_error (question (response ans)) 0 with
                    | None => (Err IndexError, tr')
                    | Some q0 =>
                        match parent (Question.name q0) with
                        | None => (Err NoParent, tr')
                        | Some parent_query =>
                            get_zone_name fuel' self (QName parent_query)
                              cached raise_on_cdname tr'
                        end
                    end
              | Err other => (Err other, tr')
              | OutOfFuel => (OutOfFuel, tr')
              | Ok _ =>
                  match first_soa_owner (answer (response ans)) with
                  | Some zone => (Ok zone, tr')
                  | None =>
                      match authority (response ans) with
                      | first_authority :: _ => (Ok (RRset.name first_authority), tr')
                      | [] =>
                          (Err (ResolverErrorPermanent (NoSoaReceived query)), tr')
                      end
                  end
              end
          end
  end.

End Methods.

(** ** Vocabulary of the statements *)

(** The number of Answer-section entries of type CNAME or DNAME. *)
Definition count_redirects (ans : Answer) : nat :=
  List.length (filter (fun rr => is_cdname (RRset.rdtype rr)) (answer (response ans))).

(** The one SOA query that [get_zone_name] sends for [query]. *)
Definition soa_query (self : ResolverClient) (cached : bool) (query : Query) : EngineCall :=
  resolve_call (pick self cached) query IN SOA false false.

(** The one TXT query that [get_txt] sends. *)
Definition txt_query (self : ResolverClient) (cached : bool) (query : Query)
    (search : bool) : EngineCall :=
  resolve_call (pick self cached) query IN TXT search false.

(** The one combined lookup that [get_ip] sends. *)
Definition ip_query (self : ResolverClient) (cached : bool) (query : Query)
    (ipv6 search : bool) : EngineCall :=
  resolve_name_call (pick self cached) query (if ipv6 then AF_UNSPEC else AF_INET) search.

(** What one TXT record decodes to: [Single] for one character-string,
    [Multi] for more than one. *)
Inductive decodes : list bytes -> TextEntry -> Prop :=
| decodes_single : forall s, decodes [s] (Single s)
| decodes_multi : forall l, 1 < List.length l -> decodes l (Multi l).



(** What the SOA search of [get_zone_name] gives on a reply. *)
Definition zone_of_reply (query : Query) (ans : Answer) : Result Name :=
  match first_soa_owner (answer (response ans)) with
  | Some zone => Ok zone
  | None =>
      match authority (response ans) with
      | first_authority :: _ => Ok (RRset.name first_authority)
      | [] => Err (ResolverErrorPermanent (NoSoaReceived query))
      end
  end.

(** ** Concrete names, answers and engines *)

(** The bytes of an ASCII text. *)
Definition ascii_bytes (s : string) : bytes := list_byte_of_string s.

Definition www_stanford_edu : Name := ["www"; "stanford"; "edu"; ""]%string.
Definition stanford_edu : Name := ["stanford"; "edu"; ""]%string.
Definition fastly_target : Name :=
  ["pantheon-systems"; "map"; "fastly"; "net"; ""]%string.
Definition fastly_net : Name := ["fastly"; "net"; ""]%string.
Definition www_relative : Name := ["www"]%string.

Definition soa_payload (zone : Name) : Rdata :=
  RdSOA ("ns" :: zone)%string ("hostmaster" :: zone)%string 1.

(** The reply to an SOA query for [www.stanford.edu.], a CNAME into
    [fastly.net.]: the Answer section holds the CNAME, the Authority
    section the SOA of the zone of the target. *)
Definition www_soa_answer : Answer :=
  mkAnswer
    (mkMessage
       [Question.mk www_stanford_edu SOA]
       [RRset.mk www_stanford_edu CNAME (RdTarget fastly_target) []]
       [RRset.mk fastly_net SOA (soa_payload fastly_net) []])
    None.

(** The reply to an SOA query for the apex [stanford.edu.]. *)
Definition stanford_soa_answer : Answer :=
  mkAnswer
    (mkMessage
       [Question.mk stanford_edu SOA]
       [RRset.mk stanford_edu SOA (soa_payload stanford_edu) []]
       [])
    (Some (RRset.mk stanford_edu SOA (soa_payload stanford_edu) [])).

(** The reply to an SOA query for a name below the apex, without
    redirect: the SOA comes in the Authority section. *)
Definition host_soa_answer (host : Name) : Answer :=
  mkAnswer
    (mkMessage
       [Question.mk host SOA]
       []
       [RRset.mk stanford_edu SOA (soa_payload stanford_edu) []])
    None.

(** An engine for the zone [stanford.edu.]: [www] is the CNAME above,
    the apex answers with its SOA, every other name does not exist. *)
Definition stanford_engine (tr : Trace) (resolver : Resolver) (qname : Query)
    (rdclass : RdataClass) (rdtype : RdataType) (search raise_on_no_answer : bool)
    : Outcome Answer :=
  match qname with
  | QName n =>
      if eqb n www_stanford_edu then Returns www_soa_answer
      else if eqb n stanford_edu then Returns stanford_soa_answer
      else Raises NXDOMAIN
  | QStr _ => Raises NXDOMAIN
  end.

(** An engine that fails every query in the same way. *)
Definition failing_engine (e : DnsException) (tr : Trace) (resolver : Resolver)
    (qname : Query) (rdclass : RdataClass) (rdtype : RdataType)
    (search raise_on_no_answer : bool) : Outcome Answer :=
  Raises e.

(** An engine that gives every query the same reply. *)
Definition constant_engine (reply : Answer) (tr : Trace) (resolver : Resolver)
    (qname : Query) (rdclass : RdataClass) (rdtype : RdataType)
    (search raise_on_no_answer : bool) : Outcome Answer :=
  Returns reply.

Definition constant_name_engine (o : Outcome HostAnswers) (tr : Trace)
    (resolver : Resolver) (name : Query) (family : AddressFamily) (search : bool)
    : Outcome HostAnswers :=
  o.

Definition client : ResolverClient := __init__ dnspython_fresh dnspython_fresh.

(** A TXT reply with two records: one of one string, one of three. *)
Definition spf_record : list bytes := [ascii_bytes "v=spf1 -all"].
Definition abc_record : list bytes :=
  [ascii_bytes "a"; ascii_bytes "b"; ascii_bytes "c"].
Definition txt_records : list (list bytes) := [spf_record; abc_record].

Definition txt_rrset (owner : Name) (first : list bytes) (rest : list (list bytes)) : RRset.t :=
  RRset.mk owner TXT (RdTXT first) (map RdTXT rest).

Definition txt_reply : Answer :=
  let rr := txt_rrset stanford_edu spf_record [abc_record] in
  mkAnswer (mkMessage [Question.mk stanford_edu TXT] [rr] []) (Some rr).

(** A TXT reply whose second record carries no character-string. *)
Definition txt_reply_empty_record : Answer :=
  let rr := txt_rrset stanford_edu [ascii_bytes "x"] [[]] in
  mkAnswer (mkMessage [Question.mk stanford_edu TXT] [rr] []) (Some rr).

(** The reply to a TXT query for [www.stanford.edu.] when the target of
    the CNAME has no TXT record: the Answer section holds the CNAME only,
    and no RRset answers the question. *)
Definition www_txt_no_data : Answer :=
  mkAnswer
    (mkMessage
       [Question.mk www_stanford_edu TXT]
       [RRset.mk www_stanford_edu CNAME (RdTarget fastly_target) []]
       [RRset.mk fastly_net SOA (soa_payload fastly_net) []])
    None.

(** A TXT reply without redirect and without TXT record. *)
Definition txt_no_data : Answer :=
  mkAnswer
    (mkMessage
       [Question.mk stanford_edu TXT]
       []
       [RRset.mk stanford_edu SOA (soa_payload stanford_edu) []])
    None.

(** The answers for a name with the AAAA records [::1] and [::2] and the
    A record [1.1.1.1]. *)
Definition v6_first_addresses : HostAnswers :=
  mkHostAnswers ["::1"; "::2"]%string ["1.1.1.1"]%string.

(** The reply to a TXT query for [www.stanford.edu.] when the target of
    the CNAME has the two TXT records above: the Answer section holds the
    CNAME and the TXT RRset of the target, which answers the question. *)
Definition www_txt_reply : Answer :=
  let rr := txt_rrset fastly_target spf_record [abc_record] in
  mkAnswer
    (mkMessage
       [Question.mk www_stanford_edu TXT]
       [RRset.mk www_stanford_edu CNAME (RdTarget fastly_target) []; rr]
       [])
    (Some rr).

(** ** The older client ([clients/resolver.py]) *)

Module Legacy.

(** The older [get_ip] passes [lifetime] with each lookup, so a call
    carries it. *)
Inductive EngineCall :=
| resolve_name_call (resolver : Resolver) (name : Query)
    (family : AddressFamily) (search : bool) (lifetime : Z).

Definition Trace := list EngineCall.

(** The older [ResolverClient.__init__]: no lifetime is set, and the
    assignment after the second construction writes to [self._resolver]
    again. *)
Definition __init__ (fresh1 fresh2 : Resolver) : ResolverClient :=
  let r := fresh1 in
  let r := set_cache (mkCache CACHE_CLEAN_INTERVAL) r in
  let r := set_retry_servfail true r in
  let rn := fresh2 in
  let r := set_retry_servfail true r in
  mkResolverClient r rn.

(** The older [ResolverClient.get_ip], for an engine [resolve_name] that
    takes the lifetime of the lookup. *)
Definition get_ip
    (resolve_name : Trace -> Resolver -> Query -> AddressFamily -> bool -> Z ->
                    Outcome HostAnswers)
    (self : ResolverClient) (query : Query) (cached ipv6 search : bool)
    : Trace -> Result (list string) * Trace :=
  let resolver := pick self cached in
  let family := if ipv6 then AF_UNSPEC else AF_INET in
  fun tr =>
    let tr' := tr ++ [resolve_name_call resolver query family search RESOLVER_TIMEOUT] in
    match resolve_name tr resolver query family search RESOLVER_TIMEOUT with
    | Returns answers => (Ok (addresses answers), tr')
    | Raises NXDOMAIN | Raises NoAnswer => (Ok [], tr')
    | Raises NoNameservers | Raises LifetimeTimeout => (Err ResolverError, tr')
    | Raises YXDOMAIN => (Err (ResolverErrorPermanent YxdomainHappened), tr')
    end.

End Legacy.

(** A lookup of the older client, with its lifetime forgotten. *)
Definition forget_lifetime (c : Legacy.EngineCall) : EngineCall :=
  match c with
  | Legacy.resolve_name_call resolver name family search _ =>
      resolve_name_call resolver name family search
  end.

(** An older engine that asks a current engine, whatever the lifetime. *)
Definition ignoring_lifetime
    (resolve_name : Trace -> Resolver -> Query -> AddressFamily -> bool ->
                    Outcome HostAnswers)
    (tr : Legacy.Trace) (resolver : Resolver) (name : Query)
    (family : AddressFamily) (search : bool) (lifetime : Z)
    : Outcome HostAnswers :=
  resolve_name (map forget_lifetime tr) resolver name family search.

(** ** More vocabulary *)

(** The character-strings that a decoded entry stands for. *)
Definition entry_strings (e : TextEntry) : list bytes :=
  match e with
  | Single s => [s]
  | Multi l => l
  end.

(** ** Shared lemmas *)

Lemma fold_count_from (section : list RRset.t) (start : nat) :
  fold_left
    (fun found rr => if is_cdname (RRset.rdtype rr) then found + 1 else found)
    section start
  = start + List.length (filter (fun rr => is_cdname (RRset.rdtype rr)) section).
Proof.
  revert start.
  induction section as [|rr more IH]; intro start; simpl.
  - lia.
  - rewrite IH. destruct (is_cdname (RRset.rdtype rr)); simpl; lia.
Qed.

Lemma redirects_found_count (ans : Answer) :
  redirects_found ans = count_redirects ans.
Proof.
  unfold redirects_found, count_redirects.
  destruct (answer (response ans)) as [|rr more] eqn:E.
  - reflexivity.
  - change (0 <? List.length (rr :: more)) with true. cbv iota.
    now rewrite fold_count_from.
Qed.

Section MethodLemmas.

Variable resolve :
  Trace -> Resolver -> Query -> RdataClass -> RdataType -> bool -> bool ->
  Outcome Answer.

(** On a reply, [get_zone_name] either re-raises the redirect error or
    runs the SOA search; in both cases it has sent one query. *)
Lemma get_zone_name_on_reply (fuel : nat) (self : ResolverClient) (query : Query)
    (cached raise_on_cdname : bool) (tr : Trace) (ans : Answer) :
  not_a_fqdn query = false ->
  resolve tr (pick self cached) query IN SOA false false = Returns ans ->
  get_zone_name resolve (S fuel) self query cached raise_on_cdname tr =
    (if raise_on_cdname && (0 <? redirects_found ans)
     then Err (ResolverErrorCDName (question (response ans)))
     else zone_of_reply query ans,
     tr ++ [soa_query self cached query]).
Proof.
  intros Hq Hr. simpl. rewrite Hq. unfold do_resolve. rewrite Hr.
  unfold _check_has_cdname, zone_of_reply, soa_query.
  destruct (0 <? redirects_found ans); destruct raise_on_cdname; simpl;
    try reflexivity;
    destruct (first_soa_owner (answer (response ans))); try reflexivity;
    destruct (authority (response ans)); reflexivity.
Qed.

(** On an engine failure, [get_zone_name] has sent one query. *)
Lemma get_zone_name_on_failure (fuel : nat) (self : ResolverClient) (query : Query)
    (cached raise_on_cdname : bool) (tr : Trace) (e : DnsException) :
  not_a_fqdn query = false ->
  resolve tr (pick self cached) query IN SOA false false = Raises e ->
  get_zone_name resolve (S fuel) self query cached raise_on_cdname tr =
    (match e with
     | NXDOMAIN => Err (ResolverErrorPermanent (NxdomainFor query))
     | NoNameservers | LifetimeTimeout => Err ResolverError
     | YXDOMAIN => Err (ResolverErrorPermanent YxdomainHappened)
     | NoAnswer => Err (Uncaught NoAnswer)
     end,
     tr ++ [soa_query self cached query]).
Proof.
  intros Hq Hr. simpl. rewrite Hq. unfold do_resolve. rewrite Hr.
  destruct e; reflexivity.
Qed.

End MethodLemmas.

Lemma first_soa_owner_found (pre post : list RRset.t) (rr : RRset.t) :
  Forall (fun r => RRset.rdtype r <> SOA) pre ->
  RRset.rdtype rr = SOA ->
  first_soa_owner (pre ++ rr :: post) = Some (RRset.name rr).
Proof.
  intros Hpre Hrr. induction Hpre as [|r pre Hr _ IH]; simpl.
  - now rewrite Hrr.
  - destruct (RRset.rdtype r); try exact IH. now elim Hr.
Qed.

Lemma first_soa_owner_none (section : list RRset.t) :
  Forall (fun r => RRset.rdtype r <> SOA) section ->
  first_soa_owner section = None.
Proof.
  induction 1 as [|r section Hr _ IH]; simpl.
  - reflexivity.
  - destruct (RRset.rdtype r); try exact IH. now elim Hr.
Qed.

(** ** The redirect check *)

(** C2.  [_check_has_cdname] counts the CNAME and DNAME entries of the
    Answer section.  With none it returns [False].  With one or more and
    [raise_on_cdname] set it fails with [ResolverErrorCDName], built from
    the question of the response; [get_zone_name] with [raise_on_cdname]
    set then fails with that error after exactly one query.  With one or
    more and [raise_on_cdname] unset it returns [True]. *)
Theorem check_has_cdname_cases (ans : Answer) :
  redirects_found ans = count_redirects ans /\
  (count_redirects ans = 0 ->
   forall raise_on_cdname, _check_has_cdname ans raise_on_cdname = Ok false) /\
  (0 < count_redirects ans ->
   _check_has_cdname ans true = Err (ResolverErrorCDName (question (response ans))) /\
   _check_has_cdname ans false = Ok true /\
   forall resolve fuel self query cached tr,
     not_a_fqdn query = false ->
     resolve tr (pick self cached) query IN SOA false false = Returns ans ->
     get_zone_name resolve (S fuel) self query cached true tr =
       (Err (ResolverErrorCDName (question (response ans))),
        tr ++ [soa_query self cached query])).
Proof.
  split; [apply redirects_found_count|].
  rewrite <- redirects_found_count.
  split.
  - intros H0 raise_on_cdname. unfold _check_has_cdname. now rewrite H0.
  - intro Hpos.
    assert (Hb : (0 <? redirects_found ans) = true) by now apply Nat.ltb_lt.
    unfold _check_has_cdname. rewrite Hb.
    repeat split.
    intros resolve fuel self query cached tr Hq Hr.
    rewrite (get_zone_name_on_reply resolve fuel self query cached true tr ans Hq Hr).
    now rewrite Hb.
Qed.

Lemma check_has_cdname_cases_witness :
  count_redirects stanford_soa_answer = 0 /\
  _check_has_cdname stanford_soa_answer true = Ok false /\
  0 < count_redirects www_soa_answer /\
  _check_has_cdname www_soa_answer true =
    Err (ResolverErrorCDName [Question.mk www_stanford_edu SOA]) /\
  _check_has_cdname www_soa_answer false = Ok true /\
  get_zone_name stanford_engine 1 client (QName www_stanford_edu) true true [] =
    (Err (ResolverErrorCDName [Question.mk www_stanford_edu SOA]),
     [soa_query client true (QName www_stanford_edu)]).
Proof.
  destruct (check_has_cdname_cases stanford_soa_answer) as (_ & Hzero & _).
  destruct (check_has_cdname_cases www_soa_answer) as (_ & _ & Hpos).
  assert (Hc : 0 < count_redirects www_soa_answer) by (vm_compute; lia).
  destruct (Hpos Hc) as (Hraise & Hquiet & Hzone).
  split; [reflexivity|].
  split; [apply Hzero; reflexivity|].
  split; [exact Hc|].
  split; [exact Hraise|].
  split; [exact Hquiet|].
  apply (Hzone stanford_engine 0 client (QName www_stanford_edu) true []);
    reflexivity.
Defined.

(** ** Zone lookup *)

(** C3.  For a query that passes the FQDN guard and a reply without
    redirect, [get_zone_name] returns the owner of the first SOA entry of
    the Answer section; without such an entry it returns the owner of the
    first Authority entry; with an empty Authority section as well it
    fails with [ResolverErrorPermanent].  One query is sent in each case. *)
Theorem get_zone_name_soa_search
    (resolve : Trace -> Resolver -> Query -> RdataClass -> RdataType -> bool ->
               bool -> Outcome Answer)
    (fuel : nat) (self : ResolverClient) (query : Query)
    (cached raise_on_cdname : bool) (tr : Trace) (ans : Answer) :
  not_a_fqdn query = false ->
  resolve tr (pick self cached) query IN SOA false false = Returns ans ->
  count_redirects ans = 0 ->
  let run := get_zone_name resolve (S fuel) self query cached raise_on_cdname tr in
  let sent := tr ++ [soa_query self cached query] in
  (forall pre rr post,
     answer (response ans) = pre ++ rr :: post ->
     Forall (fun r => RRset.rdtype r <> SOA) pre ->
     RRset.rdtype rr = SOA ->
     run = (Ok (RRset.name rr), sent)) /\
  (forall first_authority more,
     Forall (fun r => RRset.rdtype r <> SOA) (answer (response ans)) ->
     authority (response ans) = first_authority :: more ->
     run = (Ok (RRset.name first_authority), sent)) /\
  (Forall (fun r => RRset.rdtype r <> SOA) (answer (response ans)) ->
   authority (response ans) = [] ->
   run = (Err (ResolverErrorPermanent (NoSoaReceived query)), sent)).
Proof.
  intros Hq Hr H0 run sent. subst run sent.
  rewrite (get_zone_name_on_reply resolve fuel self query cached raise_on_cdname tr ans Hq Hr).
  rewrite redirects_found_count, H0. rewrite andb_false_r.
  unfold zone_of_reply.
  split; [|split].
  - intros pre rr post Hsplit Hpre Hrr.
    now rewrite Hsplit, (first_soa_owner_found pre post rr Hpre Hrr).
  - intros first_authority more Hnone Hauth.
    now rewrite (first_soa_owner_none _ Hnone), Hauth.
  - intros Hnone Hauth.
    now rewrite (first_soa_owner_none _ Hnone), Hauth.
Qed.

Lemma get_zone_name_soa_search_witness :
  get_zone_name stanford_engine 1 client (QName stanford_edu) true true [] =
    (Ok stanford_edu, [soa_query client true (QName stanford_edu)]) /\
  get_zone_name (constant_engine (host_soa_answer www_stanford_edu)) 1 client
    (QName www_stanford_edu) false true [] =
    (Ok stanford_edu, [soa_query client false (QName www_stanford_edu)]) /\
  get_zone_name (constant_engine (mkAnswer (mkMessage [] [] []) None)) 1 client
    (QName www_stanford_edu) true false [] =
    (Err (ResolverErrorPermanent (NoSoaReceived (QName www_stanford_edu))),
     [soa_query client true (QName www_stanford_edu)]).
Proof.
  destruct (get_zone_name_soa_search stanford_engine 0 client (QName stanford_edu)
              true true [] stanford_soa_answer eq_refl eq_refl eq_refl)
    as (Hanswer & _ & _).
  destruct (get_zone_name_soa_search
              (constant_engine (host_soa_answer www_stanford_edu)) 0 client
              (QName www_stanford_edu) false true []
              (host_soa_answer www_stanford_edu) eq_refl eq_refl eq_refl)
    as (_ & Hauthority & _).
  destruct (get_zone_name_soa_search
              (constant_engine (mkAnswer (mkMessage [] [] []) None)) 0 client
              (QName www_stanford_edu) true false []
              (mkAnswer (mkMessage [] [] []) None) eq_refl eq_refl eq_refl)
    as (_ & _ & Hneither).
  split; [|split].
  - apply (Hanswer [] (RRset.mk stanford_edu SOA (soa_payload stanford_edu) []) []).
    + reflexivity.
    + constructor.
    + reflexivity.
  - apply (Hauthority (RRset.mk stanford_edu SOA (soa_payload stanford_edu) []) []).
    + constructor.
    + reflexivity.
  - apply Hneither.
    + constructor.
    + reflexivity.
Defined.

(** C5.  For a query that passes the FQDN guard, [get_zone_name] turns
    the failures of its SOA query into its own errors: NXDOMAIN into
    [ResolverErrorPermanent], NoNameservers and LifetimeTimeout into
    [ResolverError], YXDOMAIN into [ResolverErrorPermanent]. *)
Theorem get_zone_name_engine_failures
    (resolve : Trace -> Resolver -> Query -> RdataClass -> RdataType -> bool ->
               bool -> Outcome Answer)
    (fuel : nat) (self : ResolverClient) (query : Query)
    (cached raise_on_cdname : bool) (tr : Trace) (e : DnsException) :
  not_a_fqdn query = false ->
  resolve tr (pick self cached) query IN SOA false false = Raises e ->
  let run := get_zone_name resolve (S fuel) self query cached raise_on_cdname tr in
  let sent := tr ++ [soa_query self cached query] in
  (e = NXDOMAIN -> run = (Err (ResolverErrorPermanent (NxdomainFor query)), sent)) /\
  (e = NoNameservers \/ e = LifetimeTimeout -> run = (Err ResolverError, sent)) /\
  (e = YXDOMAIN -> run = (Err (ResolverErrorPermanent YxdomainHappened), sent)).
Proof.
  intros Hq Hr run sent. subst run sent.
  rewrite (get_zone_name_on_failure resolve fuel self query cached raise_on_cdname tr e Hq Hr).
  split; [|split].
  - now intros ->.
  - now intros [-> | ->].
  - now intros ->.
Qed.

Lemma get_zone_name_engine_failures_witness :
  get_zone_name (failing_engine NXDOMAIN) 1 client (QName www_stanford_edu) true true [] =
    (Err (ResolverErrorPermanent (NxdomainFor (QName www_stanford_edu))),
     [soa_query client true (QName www_stanford_edu)]) /\
  get_zone_name (failing_engine NoNameservers) 1 client (QName www_stanford_edu) true true [] =
    (Err ResolverError, [soa_query client true (QName www_stanford_edu)]) /\
  get_zone_name (failing_engine LifetimeTimeout) 1 client (QName www_stanford_edu) false false [] =
    (Err ResolverError, [soa_query client false (QName www_stanford_edu)]) /\
  get_zone_name (failing_engine YXDOMAIN) 1 client (QName www_stanford_edu) true true [] =
    (Err (ResolverErrorPermanent YxdomainHappened),
     [soa_query client true (QName www_stanford_edu)]).
Proof.
  destruct (get_zone_name_engine_failures (failing_engine NXDOMAIN) 0 client
              (QName www_stanford_edu) true true [] NXDOMAIN eq_refl eq_refl)
    as (Hnx & _ & _).
  destruct (get_zone_name_engine_failures (failing_engine NoNameservers) 0 client
              (QName www_stanford_edu) true true [] NoNameservers eq_refl eq_refl)
    as (_ & Hns & _).
  destruct (get_zone_name_engine_failures (failing_engine LifetimeTimeout) 0 client
              (QName www_stanford_edu) false false [] LifetimeTimeout eq_refl eq_refl)
    as (_ & Hto & _).
  destruct (get_zone_name_engine_failures (failing_engine YXDOMAIN) 0 client
              (QName www_stanford_edu) true true [] YXDOMAIN eq_refl eq_refl)
    as (_ & _ & Hyx).
  split; [|split; [|split]].
  - apply Hnx. reflexivity.
  - apply Hns. left; reflexivity.
  - apply Hto. right; reflexivity.
  - apply Hyx. reflexivity.
Defined.

(** With [raise_on_cdname] unset, the redirect check cannot fail, so the
    handler of [get_zone_name] never runs: whatever the reply, the method
    sends one query and runs the SOA search on that reply. *)
Lemma get_zone_name_ignores_redirects
    (resolve : Trace -> Resolver -> Query -> RdataClass -> RdataType -> bool ->
               bool -> Outcome Answer)
    (fuel : nat) (self : ResolverClient) (query : Query) (cached : bool)
    (tr : Trace) (ans : Answer) :
  not_a_fqdn query = false ->
  resolve tr (pick self cached) query IN SOA false false = Returns ans ->
  get_zone_name resolve (S fuel) self query cached false tr =
    (zone_of_reply query ans, tr ++ [soa_query self cached query]).
Proof.
  intros Hq Hr.
  now rewrite (get_zone_name_on_reply resolve fuel self query cached false tr ans Hq Hr).
Qed.

(** One level of fuel is enough: [get_zone_name] never reaches its
    recursive call. *)
Lemma get_zone_name_terminates
    (resolve : Trace -> Resolver -> Query -> RdataClass -> RdataType -> bool ->
               bool -> Outcome Answer)
    (fuel : nat) (self : ResolverClient) (query : Query)
    (cached raise_on_cdname : bool) (tr : Trace) :
  fst (get_zone_name resolve (S fuel) self query cached raise_on_cdname tr) <> OutOfFuel.
Proof.
  destruct (not_a_fqdn query) eqn:Hq.
  - simpl. rewrite Hq. discriminate.
  - destruct (resolve tr (pick self cached) query IN SOA false false) as [ans|e] eqn:Hr.
    + rewrite (get_zone_name_on_reply resolve fuel self query cached raise_on_cdname tr ans Hq Hr).
      simpl. destruct (raise_on_cdname && (0 <? redirects_found ans)); [discriminate|].
      unfold zone_of_reply.
      destruct (first_soa_owner (answer (response ans))); [discriminate|].
      destruct (authority (response ans)); discriminate.
    + rewrite (get_zone_name_on_failure resolve fuel self query cached raise_on_cdname tr e Hq Hr).
      destruct e; discriminate.
Qed.

(** C1.  [www.stanford.edu.] is absolute, its SOA reply holds a CNAME,
    and its parent [stanford.edu.] has [stanford.edu.] as zone.  With
    [raise_on_cdname] unset, [get_zone_name] sends the one query for
    [www.stanford.edu.] and returns [fastly.net.], the owner of the SOA of
    the target's zone: no query for the parent is sent. *)
Theorem get_zone_name_does_not_query_parent :
  is_absolute www_stanford_edu = true /\
  count_redirects www_soa_answer = 1 /\
  parent www_stanford_edu = Some stanford_edu /\
  get_zone_name stanford_engine 3 client (QName stanford_edu) true false
    [soa_query client true (QName www_stanford_edu)] =
    (Ok stanford_edu,
     [soa_query client true (QName www_stanford_edu);
      soa_query client true (QName stanford_edu)]) /\
  get_zone_name stanford_engine 3 client (QName www_stanford_edu) true false [] =
    (Ok fastly_net, [soa_query client true (QName www_stanford_edu)]).
Proof.
  repeat split.
Qed.

(** C4.  For a name that is not absolute, [get_zone_name] fails with
    [ValueError] and sends no query, whatever [cached] and
    [raise_on_cdname] are. *)
Theorem get_zone_name_rejects_relative_name
    (resolve : Trace -> Resolver -> Query -> RdataClass -> RdataType -> bool ->
               bool -> Outcome Answer)
    (fuel : nat) (self : ResolverClient) (n : Name)
    (cached raise_on_cdname : bool) (tr : Trace) :
  is_absolute n = false ->
  get_zone_name resolve (S fuel) self (QName n) cached raise_on_cdname tr =
    (Err (ValueError (QName n)), tr).
Proof.
  intro Hrel. simpl. now rewrite Hrel.
Qed.

Lemma get_zone_name_rejects_relative_name_witness :
  is_absolute www_relative = false /\
  get_zone_name stanford_engine 1 client (QName www_relative) true false [] =
    (Err (ValueError (QName www_relative)), []).
Proof.
  split; [reflexivity|].
  apply (get_zone_name_rejects_relative_name stanford_engine 0 client www_relative
           true false []).
  reflexivity.
Defined.

(** ** Construction *)

(** C9.  After [__init__], the cached resolver has the lifetime
    [RESOLVER_TIMEOUT], retries SERVFAIL and has a cache with the cleaning
    interval [CACHE_CLEAN_INTERVAL]; the uncached resolver is the freshly
    constructed one, untouched.  With dnspython's defaults its lifetime is
    5, not 10, and the two lifetimes differ. *)
Theorem init_leaves_uncached_resolver_fresh (fresh1 fresh2 : Resolver) :
  let self := __init__ fresh1 fresh2 in
  lifetime (_resolver self) = 10%Z /\
  retry_servfail (_resolver self) = true /\
  cache (_resolver self) = Some (mkCache 300) /\
  _resolver_nocache self = fresh2 /\
  lifetime (_resolver_nocache client) = 5%Z /\
  retry_servfail (_resolver_nocache client) = false /\
  lifetime (_resolver client) <> lifetime (_resolver_nocache client).
Proof.
  repeat split. discriminate.
Qed.

(** ** TXT lookup *)

Lemma check_has_cdname_passes (reply : Answer) (raise_on_cdname : bool) :
  raise_on_cdname = false \/ count_redirects reply = 0 ->
  _check_has_cdname reply raise_on_cdname = Ok (0 <? count_redirects reply).
Proof.
  unfold _check_has_cdname. rewrite redirects_found_count.
  intros [-> | ->].
  - now destruct (0 <? count_redirects reply).
  - reflexivity.
Qed.

Lemma strings_of_txt (records : list (list bytes)) :
  map_result strings_of (map RdTXT records) = Ok records.
Proof.
  induction records as [|strs more IH]; simpl.
  - reflexivity.
  - now rewrite IH.
Qed.

Lemma collapse_decodes (strs : list bytes) :
  strs <> [] -> exists e, collapse strs = Ok e /\ decodes strs e.
Proof.
  intro Hne. destruct strs as [|s [|s' more]].
  - now elim Hne.
  - exists (Single s). split; [reflexivity|constructor].
  - exists (Multi (s :: s' :: more)). split; [reflexivity|].
    constructor. simpl. lia.
Qed.

Lemma collapse_all_decodes (records : list (list bytes)) :
  Forall (fun strs => strs <> []) records ->
  exists entries,
    map_result collapse records = Ok entries /\ Forall2 decodes records entries.
Proof.
  induction 1 as [|strs more Hne _ (entries & Hmap & Hall)].
  - exists []. split; [reflexivity|constructor].
  - destruct (collapse_decodes strs Hne) as (e & He & Hd).
    exists (e :: entries). split.
    + cbn [map_result]. now rewrite He, Hmap.
    + now constructor.
Qed.

Lemma collapse_fails_only_with_index_error (strs : list bytes) (e : Exn) :
  collapse strs = Err e -> e = IndexError.
Proof.
  unfold collapse. destruct (1 <? List.length strs); [discriminate|].
  destruct (nth_error strs 0); [discriminate|]. now intros [= <-].
Qed.

Lemma collapse_some_empty (records : list (list bytes)) :
  Exists (fun strs => strs = []) records ->
  map_result collapse records = Err IndexError.
Proof.
  induction 1 as [strs more -> | strs more _ IH].
  - reflexivity.
  - cbn [map_result]. destruct (collapse strs) as [e|e|] eqn:He.
    + now rewrite IH.
    + now rewrite (collapse_fails_only_with_index_error strs e He).
    + unfold collapse in He. destruct (1 <? List.length strs); [discriminate|].
      destruct (nth_error strs 0); discriminate.
Qed.

Lemma decodes_at (records : list (list bytes)) (entries : list TextEntry) :
  Forall2 decodes records entries ->
  forall i strs, nth_error records i = Some strs ->
    exists e, nth_error entries i = Some e /\ decodes strs e.
Proof.
  induction 1 as [|strs0 e0 records entries Hd _ IH]; intros [|i] strs Hi;
    simpl in Hi; try discriminate.
  - injection Hi as <-. exists e0. now split.
  - exact (IH i strs Hi).
Qed.

Section TxtLemmas.

Variable resolve :
  Trace -> Resolver -> Query -> RdataClass -> RdataType -> bool -> bool ->
  Outcome Answer.

(** On a reply, [get_txt] runs the redirect check, then decodes
    [reply.rrset]; it has sent one query. *)
Lemma get_txt_on_reply (self : ResolverClient) (query : Query)
    (cached search raise_on_cdname : bool) (tr : Trace) (reply : Answer) :
  resolve tr (pick self cached) query IN TXT search false = Returns reply ->
  get_txt resolve self query cached search raise_on_cdname tr =
    (match _check_has_cdname reply raise_on_cdname with
     | Ok _ =>
         match rrset reply with
         | None => Ok []
         | Some rr => decode_rrset rr
         end
     | Err e => Err e
     | OutOfFuel => OutOfFuel
     end,
     tr ++ [txt_query self cached query search]).
Proof.
  intro Hr. unfold get_txt, do_resolve, bind, lift, ret, txt_query. rewrite Hr.
  destruct (_check_has_cdname reply raise_on_cdname); try reflexivity.
  now destruct (rrset reply).
Qed.

Lemma get_txt_on_records (self : ResolverClient) (query : Query)
    (cached search raise_on_cdname : bool) (tr : Trace) (reply : Answer)
    (rr : RRset.t) (records : list (list bytes)) :
  resolve tr (pick self cached) query IN TXT search false = Returns reply ->
  raise_on_cdname = false \/ count_redirects reply = 0 ->
  rrset reply = Some rr ->
  RRset.items rr = map RdTXT records ->
  get_txt resolve self query cached search raise_on_cdname tr =
    (map_result collapse records, tr ++ [txt_query self cached query search]).
Proof.
  intros Hr Hpass Hrr Hitems.
  rewrite (get_txt_on_reply self query cached search raise_on_cdname tr reply Hr).
  rewrite (check_has_cdname_passes reply raise_on_cdname Hpass), Hrr.
  unfold decode_rrset. now rewrite Hitems, strings_of_txt.
Qed.

End TxtLemmas.

(** C6, amended.  When the reply passes the redirect check and its RRset
    holds TXT records of one or more character-strings each, [get_txt]
    returns one entry per record, in the order of the records: [Single s]
    for the record of the one string [s], [Multi l] for a record of more
    than one string, with [l] those strings in their order.  An entry for
    a record of one string is never a [Multi]. *)
Theorem get_txt_decodes_each_record
    (resolve : Trace -> Resolver -> Query -> RdataClass -> RdataType -> bool ->
               bool -> Outcome Answer)
    (self : ResolverClient) (query : Query)
    (cached search raise_on_cdname : bool) (tr : Trace) (reply : Answer)
    (rr : RRset.t) (records : list (list bytes)) :
  resolve tr (pick self cached) query IN TXT search false = Returns reply ->
  raise_on_cdname = false \/ count_redirects reply = 0 ->
  rrset reply = Some rr ->
  RRset.items rr = map RdTXT records ->
  Forall (fun strs => strs <> []) records ->
  exists entries,
    get_txt resolve self query cached search raise_on_cdname tr =
      (Ok entries, tr ++ [txt_query self cached query search]) /\
    List.length entries = List.length records /\
    Forall2 decodes records entries /\
    (forall i s, nth_error records i = Some [s] ->
       nth_error entries i = Some (Single s)) /\
    (forall i l, nth_error records i = Some l -> 1 < List.length l ->
       nth_error entries i = Some (Multi l)) /\
    (forall i s l, nth_error records i = Some [s] ->
       nth_error entries i <> Some (Multi l)).
Proof.
  intros Hr Hpass Hrr Hitems Hne.
  destruct (collapse_all_decodes records Hne) as (entries & Hmap & Hall).
  exists entries.
  rewrite (get_txt_on_records resolve self query cached search raise_on_cdname
             tr reply rr records Hr Hpass Hrr Hitems), Hmap.
  assert (Hsingle : forall i s, nth_error records i = Some [s] ->
                      nth_error entries i = Some (Single s)).
  { intros i s Hi. destruct (decodes_at records entries Hall i [s] Hi) as (e & He & Hd).
    rewrite He. inversion Hd as [s0 Hs0 | l Hlen Hl]; subst.
    - reflexivity.
    - simpl in Hlen. lia. }
  repeat split.
  - symmetry. exact (Forall2_length Hall).
  - exact Hall.
  - exact Hsingle.
  - intros i l Hi Hlen.
    destruct (decodes_at records entries Hall i l Hi) as (e & He & Hd).
    rewrite He. inversion Hd as [s0 Hs0 | l0 Hlen0 Hl0]; subst.
    + simpl in Hlen. lia.
    + reflexivity.
  - intros i s l Hi. rewrite (Hsingle i s Hi). discriminate.
Qed.

Lemma get_txt_decodes_each_record_witness :
  exists entries,
    get_txt (constant_engine txt_reply) client (QName stanford_edu) true true true [] =
      (Ok entries, [txt_query client true (QName stanford_edu) true]) /\
    nth_error entries 0 = Some (Single (ascii_bytes "v=spf1 -all")) /\
    nth_error entries 1 =
      Some (Multi [ascii_bytes "a"; ascii_bytes "b"; ascii_bytes "c"]).
Proof.
  destruct (get_txt_decodes_each_record (constant_engine txt_reply) client
              (QName stanford_edu) true true true [] txt_reply
              (txt_rrset stanford_edu spf_record [abc_record])
              txt_records eq_refl (or_intror eq_refl) eq_refl eq_refl)
    as (entries & Hrun & _ & _ & Hsingle & Hmulti & _).
  - repeat constructor; discriminate.
  - exists entries. split; [exact Hrun|]. split.
    + apply (Hsingle 0). reflexivity.
    + apply (Hmulti 1); [reflexivity|]. simpl. lia.
Defined.

(** C6, as stated, fails for a TXT answer reached through a CNAME: with
    [raise_on_cdname] set, [get_txt] fails with [ResolverErrorCDName] and
    decodes none of the two TXT records that the reply holds. *)
Lemma get_txt_records_behind_cname_fail :
  rrset www_txt_reply = Some (txt_rrset fastly_target spf_record [abc_record]) /\
  RRset.items (txt_rrset fastly_target spf_record [abc_record]) =
    map RdTXT [spf_record; abc_record] /\
  get_txt (constant_engine www_txt_reply) client (QName www_stanford_edu)
    true true true [] =
    (Err (ResolverErrorCDName [Question.mk www_stanford_edu TXT]),
     [txt_query client true (QName www_stanford_edu) true]) /\
  forall entries,
    fst (get_txt (constant_engine www_txt_reply) client (QName www_stanford_edu)
           true true true []) <> Ok entries.
Proof.
  split; [reflexivity|]. split; [reflexivity|]. split; [reflexivity|].
  intros entries. discriminate.
Qed.

(** C10.  The decoding step takes [entries[0]] of a record of at most
    one string.  On a record with a string that succeeds; on a record
    without strings it raises [IndexError].  So [get_txt] returns entries
    when every record of the reply has a string, and fails with
    [IndexError] when some record has none. *)
Theorem get_txt_first_string_index
    (resolve : Trace -> Resolver -> Query -> RdataClass -> RdataType -> bool ->
               bool -> Outcome Answer)
    (self : ResolverClient) (query : Query)
    (cached search raise_on_cdname : bool) (tr : Trace) (reply : Answer)
    (rr : RRset.t) (records : list (list bytes)) :
  resolve tr (pick self cached) query IN TXT search false = Returns reply ->
  raise_on_cdname = false \/ count_redirects reply = 0 ->
  rrset reply = Some rr ->
  RRset.items rr = map RdTXT records ->
  let run := get_txt resolve self query cached search raise_on_cdname tr in
  let sent := tr ++ [txt_query self cached query search] in
  collapse [] = Err IndexError /\
  (forall s more, collapse (s :: more) <> Err IndexError) /\
  (Forall (fun strs => strs <> []) records ->
   exists entries, run = (Ok entries, sent)) /\
  (Exists (fun strs => strs = []) records -> run = (Err IndexError, sent)).
Proof.
  intros Hr Hpass Hrr Hitems run sent. subst run sent.
  rewrite (get_txt_on_records resolve self query cached search raise_on_cdname
             tr reply rr records Hr Hpass Hrr Hitems).
  split; [reflexivity|].
  split; [intros s [|s' more]; discriminate|].
  split.
  - intro Hne. destruct (collapse_all_decodes records Hne) as (entries & Hmap & _).
    exists entries. now rewrite Hmap.
  - intro Hex. now rewrite (collapse_some_empty records Hex).
Qed.

Lemma get_txt_first_string_index_witness :
  (exists entries,
     get_txt (constant_engine txt_reply) client (QName stanford_edu) true true true [] =
       (Ok entries, [txt_query client true (QName stanford_edu) true])) /\
  get_txt (constant_engine txt_reply_empty_record) client (QName stanford_edu)
    false true false [] =
    (Err IndexError, [txt_query client false (QName stanford_edu) true]).
Proof.
  destruct (get_txt_first_string_index (constant_engine txt_reply) client
              (QName stanford_edu) true true true [] txt_reply
              (txt_rrset stanford_edu spf_record [abc_record])
              txt_records eq_refl (or_intror eq_refl) eq_refl eq_refl)
    as (_ & _ & Hgood & _).
  destruct (get_txt_first_string_index (constant_engine txt_reply_empty_record) client
              (QName stanford_edu) false true false [] txt_reply_empty_record
              (txt_rrset stanford_edu [ascii_bytes "x"] [[]])
              [[ascii_bytes "x"]; []] eq_refl (or_introl eq_refl) eq_refl eq_refl)
    as (_ & _ & _ & Hbad).
  split.
  - apply Hgood. repeat constructor; discriminate.
  - apply Hbad. right. left. reflexivity.
Defined.

(** ** Absence and failure on TXT and address lookups *)

Section IpLemmas.

Variable resolve_name :
  Trace -> Resolver -> Query -> AddressFamily -> bool -> Outcome HostAnswers.

Lemma get_ip_on_outcome (self : ResolverClient) (query : Query)
    (cached ipv6 search : bool) (tr : Trace) :
  get_ip resolve_name self query cached ipv6 search tr =
    (match resolve_name tr (pick self cached) query
             (if ipv6 then AF_UNSPEC else AF_INET) search with
     | Returns answers => Ok (addresses answers)
     | Raises NXDOMAIN | Raises NoAnswer => Ok []
     | Raises NoNameservers | Raises LifetimeTimeout => Err ResolverError
     | Raises YXDOMAIN => Err (ResolverErrorPermanent YxdomainHappened)
     end,
     tr ++ [ip_query self cached query ipv6 search]).
Proof.
  unfold get_ip, try_except, bind, do_resolve_name, ret, raise, ip_query.
  destruct (resolve_name tr (pick self cached) query
              (if ipv6 then AF_UNSPEC else AF_INET) search) as [answers|[]];
    reflexivity.
Qed.

End IpLemmas.

(** C8, amended.  [get_ip] returns the empty list when the engine raises
    NXDOMAIN or NoAnswer.  [get_txt] returns the empty list when the
    engine raises NXDOMAIN, and when the reply holds no TXT RRset and
    passes the redirect check.  Both fail with [ResolverError] on
    NoNameservers and LifetimeTimeout and with [ResolverErrorPermanent] on
    YXDOMAIN.  Each sends one query. *)
Theorem lookups_map_absence_and_failure
    (resolve : Trace -> Resolver -> Query -> RdataClass -> RdataType -> bool ->
               bool -> Outcome Answer)
    (resolve_name : Trace -> Resolver -> Query -> AddressFamily -> bool ->
                    Outcome HostAnswers)
    (self : ResolverClient) (query : Query)
    (cached ipv6 search raise_on_cdname : bool) (tr : Trace) :
  let asked_ip :=
    resolve_name tr (pick self cached) query (if ipv6 then AF_UNSPEC else AF_INET) search in
  let run_ip := get_ip resolve_name self query cached ipv6 search tr in
  let sent_ip := tr ++ [ip_query self cached query ipv6 search] in
  let asked_txt := resolve tr (pick self cached) query IN TXT search false in
  let run_txt := get_txt resolve self query cached search raise_on_cdname tr in
  let sent_txt := tr ++ [txt_query self cached query search] in
  (asked_ip = Raises NXDOMAIN \/ asked_ip = Raises NoAnswer ->
   run_ip = (Ok [], sent_ip)) /\
  (asked_ip = Raises NoNameservers \/ asked_ip = Raises LifetimeTimeout ->
   run_ip = (Err ResolverError, sent_ip)) /\
  (asked_ip = Raises YXDOMAIN ->
   run_ip = (Err (ResolverErrorPermanent YxdomainHappened), sent_ip)) /\
  (asked_txt = Raises NXDOMAIN -> run_txt = (Ok [], sent_txt)) /\
  (forall reply,
     asked_txt = Returns reply ->
     rrset reply = None ->
     raise_on_cdname = false \/ count_redirects reply = 0 ->
     run_txt = (Ok [], sent_txt)) /\
  (asked_txt = Raises NoNameservers \/ asked_txt = Raises LifetimeTimeout ->
   run_txt = (Err ResolverError, sent_txt)) /\
  (asked_txt = Raises YXDOMAIN ->
   run_txt = (Err (ResolverErrorPermanent YxdomainHappened), sent_txt)).
Proof.
  intros asked_ip run_ip sent_ip asked_txt run_txt sent_txt.
  subst run_ip sent_ip. rewrite get_ip_on_outcome. fold asked_ip.
  repeat split.
  - now intros [-> | ->].
  - now intros [-> | ->].
  - now intros ->.
  - subst run_txt sent_txt asked_txt. intro Hr.
    unfold get_txt, do_resolve. now rewrite Hr.
  - subst run_txt sent_txt asked_txt. intros reply Hr Hnone Hpass.
    rewrite (get_txt_on_reply resolve self query cached search raise_on_cdname tr reply Hr).
    now rewrite (check_has_cdname_passes reply raise_on_cdname Hpass), Hnone.
  - subst run_txt sent_txt asked_txt.
    intros [Hr | Hr]; unfold get_txt, do_resolve; now rewrite Hr.
  - subst run_txt sent_txt asked_txt. intro Hr.
    unfold get_txt, do_resolve. now rewrite Hr.
Qed.

Lemma lookups_map_absence_and_failure_witness :
  let q := QName stanford_edu in
  let ip e := get_ip (constant_name_engine (Raises e)) client q true true true [] in
  let txt e := get_txt (failing_engine e) client q true true true [] in
  let sent_ip := [ip_query client true q true true] in
  let sent_txt := [txt_query client true q true] in
  ip NXDOMAIN = (Ok [], sent_ip) /\
  ip NoAnswer = (Ok [], sent_ip) /\
  ip NoNameservers = (Err ResolverError, sent_ip) /\
  ip LifetimeTimeout = (Err ResolverError, sent_ip) /\
  ip YXDOMAIN = (Err (ResolverErrorPermanent YxdomainHappened), sent_ip) /\
  txt NXDOMAIN = (Ok [], sent_txt) /\
  get_txt (constant_engine txt_no_data) client q true true true [] = (Ok [], sent_txt) /\
  get_txt (constant_engine www_txt_no_data) client (QName www_stanford_edu)
    true true false [] = (Ok [], [txt_query client true (QName www_stanford_edu) true]) /\
  txt NoNameservers = (Err ResolverError, sent_txt) /\
  txt LifetimeTimeout = (Err ResolverError, sent_txt) /\
  txt YXDOMAIN = (Err (ResolverErrorPermanent YxdomainHappened), sent_txt).
Proof.
  intros q ip txt sent_ip sent_txt.
  pose (at_failure e :=
          lookups_map_absence_and_failure (failing_engine e)
            (constant_name_engine (Raises e)) client q true true true true []).
  pose (at_reply reply name raise_on_cdname :=
          lookups_map_absence_and_failure (constant_engine reply)
            (constant_name_engine (Raises NXDOMAIN)) client (QName name)
            true true true raise_on_cdname []).
  split.
  { destruct (at_failure NXDOMAIN) as (H & _). apply H. left; reflexivity. }
  split.
  { destruct (at_failure NoAnswer) as (H & _). apply H. right; reflexivity. }
  split.
  { destruct (at_failure NoNameservers) as (_ & H & _). apply H. left; reflexivity. }
  split.
  { destruct (at_failure LifetimeTimeout) as (_ & H & _). apply H. right; reflexivity. }
  split.
  { destruct (at_failure YXDOMAIN) as (_ & _ & H & _). apply H. reflexivity. }
  split.
  { destruct (at_failure NXDOMAIN) as (_ & _ & _ & H & _). apply H. reflexivity. }
  split.
  { destruct (at_reply txt_no_data stanford_edu true) as (_ & _ & _ & _ & H & _).
    apply (H txt_no_data); [reflexivity|reflexivity|right; reflexivity]. }
  split.
  { destruct (at_reply www_txt_no_data www_stanford_edu false)
      as (_ & _ & _ & _ & H & _).
    apply (H www_txt_no_data); [reflexivity|reflexivity|left; reflexivity]. }
  split.
  { destruct (at_failure NoNameservers) as (_ & _ & _ & _ & _ & H & _).
    apply H. left; reflexivity. }
  split.
  { destruct (at_failure LifetimeTimeout) as (_ & _ & _ & _ & _ & H & _).
    apply H. right; reflexivity. }
  destruct (at_failure YXDOMAIN) as (_ & _ & _ & _ & _ & _ & H).
  apply H. reflexivity.
Defined.

(** C8, as stated, fails for [get_txt] on a reply without TXT record
    that was reached through a CNAME: with [raise_on_cdname] set, the
    redirect check runs before the test of [reply.rrset], and the lookup
    fails with [ResolverErrorCDName] instead of returning the empty list. *)
Lemma get_txt_no_data_behind_cname_fails :
  rrset www_txt_no_data = None /\
  get_txt (constant_engine www_txt_no_data) client (QName www_stanford_edu)
    true true true [] =
    (Err (ResolverErrorCDName [Question.mk www_stanford_edu TXT]),
     [txt_query client true (QName www_stanford_edu) true]) /\
  get_txt (constant_engine www_txt_no_data) client (QName www_stanford_edu)
    true true true [] <>
    (Ok [], [txt_query client true (QName www_stanford_edu) true]).
Proof.
  repeat split. discriminate.
Qed.

(** ** Address lookup *)







(** ** Further properties of the zone lookup *)

Section ZoneFacts.

Variable resolve :
  Trace -> Resolver -> Query -> RdataClass -> RdataType -> bool -> bool ->
  Outcome Answer.

(** What [get_zone_name] does, by the outcome of its one query. *)
Lemma get_zone_name_cases (fuel : nat) (self : ResolverClient) (query : Query)
    (cached raise_on_cdname : bool) (tr : Trace) :
  not_a_fqdn query = false ->
  let run := get_zone_name resolve (S fuel) self query cached raise_on_cdname tr in
  let sent := tr ++ [soa_query self cached query] in
  (exists reply,
     resolve tr (pick self cached) query IN SOA false false = Returns reply /\
     run = (if raise_on_cdname && (0 <? redirects_found reply)
            then Err (ResolverErrorCDName (question (response reply)))
            else zone_of_reply query reply, sent)) \/
  (exists e,
     resolve tr (pick self cached) query IN SOA false false = Raises e /\
     run = (match e with
            | NXDOMAIN => Err (ResolverErrorPermanent (NxdomainFor query))
            | NoNameservers | LifetimeTimeout => Err ResolverError
            | YXDOMAIN => Err (ResolverErrorPermanent YxdomainHappened)
            | NoAnswer => Err (Uncaught NoAnswer)
            end, sent)).
Proof.
  intros Hq run sent. subst run sent.
  destruct (resolve tr (pick self cached) query IN SOA false false) as [reply|e] eqn:Hr.
  - left. exists reply. split; [reflexivity|].
    exact (get_zone_name_on_reply resolve fuel self query cached raise_on_cdname
             tr reply Hq Hr).
  - right. exists e. split; [reflexivity|].
    exact (get_zone_name_on_failure resolve fuel self query cached raise_on_cdname
             tr e Hq Hr).
Qed.

End ZoneFacts.

Lemma zone_of_reply_ok (query : Query) (reply : Answer) (zone : Name) :
  zone_of_reply query reply = Ok zone ->
  (exists rr, In rr (answer (response reply)) /\ RRset.rdtype rr = SOA /\
              RRset.name rr = zone) \/
  (Forall (fun r => RRset.rdtype r <> SOA) (answer (response reply)) /\
   exists first_authority more,
     authority (response reply) = first_authority :: more /\
     RRset.name first_authority = zone).
Proof.
  unfold zone_of_reply.
  assert (Hloop : forall section,
             match first_soa_owner section with
             | Some z => exists rr, In rr section /\ RRset.rdtype rr = SOA /\
                                    RRset.name rr = z
             | None => Forall (fun r => RRset.rdtype r <> SOA) section
             end).
  { induction section as [|r more IH]; simpl.
    - constructor.
    - destruct (RRset.rdtype r) eqn:Ht; simpl;
        try (destruct (first_soa_owner more) as [z|];
             [destruct IH as (rr & Hin & Hrr & Hz); exists rr; auto
             |constructor; [rewrite Ht; discriminate|exact IH]]).
      exists r. auto. }
  specialize (Hloop (answer (response reply))).
  destruct (first_soa_owner (answer (response reply))) as [z|].
  - intros [= <-]. now left.
  - destruct (authority (response reply)) as [|first_authority more]; [discriminate|].
    intros [= <-]. right. split; [exact Hloop|]. now exists first_authority, more.
Qed.

Lemma zone_of_reply_errors (query : Query) (reply : Answer) (e : Exn) :
  zone_of_reply query reply = Err e ->
  e = ResolverErrorPermanent (NoSoaReceived query) /\
  first_soa_owner (answer (response reply)) = None /\
  authority (response reply) = [].
Proof.
  unfold zone_of_reply.
  destruct (first_soa_owner (answer (response reply))); [discriminate|].
  destruct (authority (response reply)); [|discriminate].
  intros [= <-]. repeat split.
Qed.

Lemma zone_of_reply_has_fuel (query : Query) (reply : Answer) :
  zone_of_reply query reply <> OutOfFuel.
Proof.
  unfold zone_of_reply.
  destruct (first_soa_owner (answer (response reply))); [discriminate|].
  destruct (authority (response reply)); discriminate.
Qed.

(** X1.  For a query that passes the FQDN guard, [get_zone_name] sends
    exactly one SOA query, for [query] itself, whatever the engine
    answers and whatever the flags are: it never calls itself.  The
    result is the same at every depth of recursion allowed, and it is
    never the [IndexError] or [NoParent] of the retry branch. *)
Theorem get_zone_name_single_query
    (resolve : Trace -> Resolver -> Query -> RdataClass -> RdataType -> bool ->
               bool -> Outcome Answer)
    (fuel fuel' : nat) (self : ResolverClient) (query : Query)
    (cached raise_on_cdname : bool) (tr : Trace) :
  not_a_fqdn query = false ->
  let run := get_zone_name resolve (S fuel) self query cached raise_on_cdname tr in
  snd run = tr ++ [soa_query self cached query] /\
  get_zone_name resolve (S fuel') self query cached raise_on_cdname tr = run /\
  fst run <> OutOfFuel /\
  fst run <> Err IndexError /\
  fst run <> Err NoParent.
Proof.
  intros Hq run.
  destruct (get_zone_name_cases resolve fuel self query cached raise_on_cdname tr Hq)
    as [(reply & Hr & Hrun) | (e & Hr & Hrun)]; fold run in Hrun.
  - split; [now rewrite Hrun|].
    split.
    { rewrite Hrun.
      exact (get_zone_name_on_reply resolve fuel' self query cached raise_on_cdname
               tr reply Hq Hr). }
    rewrite Hrun. cbn [fst].
    destruct (raise_on_cdname && (0 <? redirects_found reply)).
    + repeat split; discriminate.
    + split; [apply zone_of_reply_has_fuel|].
      split; intro Hz; apply zone_of_reply_errors in Hz as (Hz & _); discriminate.
  - split; [now rewrite Hrun|].
    split.
    { rewrite Hrun.
      exact (get_zone_name_on_failure resolve fuel' self query cached raise_on_cdname
               tr e Hq Hr). }
    rewrite Hrun. cbn [fst]. destruct e; repeat split; discriminate.
Qed.

Lemma get_zone_name_single_query_witness :
  let run := get_zone_name stanford_engine 1 client (QName www_stanford_edu) true false [] in
  snd run = [soa_query client true (QName www_stanford_edu)] /\
  get_zone_name stanford_engine 8 client (QName www_stanford_edu) true false [] = run /\
  fst run <> OutOfFuel /\
  fst run <> Err IndexError /\
  fst run <> Err NoParent.
Proof.
  apply (get_zone_name_single_query stanford_engine 0 7 client
           (QName www_stanford_edu) true false []).
  reflexivity.
Defined.

(** X2.  [raise_on_cdname] only adds a failure: unless the call with the
    flag set fails with [ResolverErrorCDName], the call with the flag
    unset gives the same result and sends the same query. *)
Theorem get_zone_name_flag_only_adds_failure
    (resolve : Trace -> Resolver -> Query -> RdataClass -> RdataType -> bool ->
               bool -> Outcome Answer)
    (fuel : nat) (self : ResolverClient) (query : Query) (cached : bool)
    (tr : Trace) :
  let strict := get_zone_name resolve (S fuel) self query cached true tr in
  let lenient := get_zone_name resolve (S fuel) self query cached false tr in
  (forall asked, fst strict <> Err (ResolverErrorCDName asked)) ->
  strict = lenient.
Proof.
  intros strict lenient Hno. subst strict lenient.
  destruct (not_a_fqdn query) eqn:Hq.
  - simpl. now rewrite Hq.
  - destruct (get_zone_name_cases resolve fuel self query cached true tr Hq)
      as [(reply & Hr & Hrun) | (e & Hr & Hrun)].
    + rewrite (get_zone_name_on_reply resolve fuel self query cached false tr reply Hq Hr).
      rewrite Hrun in *. cbn [andb fst] in *.
      destruct (0 <? redirects_found reply); [|reflexivity].
      now elim (Hno (question (response reply))).
    + rewrite Hrun.
      now rewrite (get_zone_name_on_failure resolve fuel self query cached false tr e Hq Hr).
Qed.

Lemma get_zone_name_flag_only_adds_failure_witness :
  get_zone_name stanford_engine 1 client (QName stanford_edu) true true [] =
  get_zone_name stanford_engine 1 client (QName stanford_edu) true false [].
Proof.
  apply (get_zone_name_flag_only_adds_failure stanford_engine 0 client
           (QName stanford_edu) true []).
  intros asked. discriminate.
Defined.

(** X3.  A zone that [get_zone_name] returns is the owner of an entry of
    the reply to the query for [query] itself: of an SOA entry of the
    Answer section, or, when that section has none, of the first entry of
    the Authority section. *)
Theorem get_zone_name_zone_comes_from_reply
    (resolve : Trace -> Resolver -> Query -> RdataClass -> RdataType -> bool ->
               bool -> Outcome Answer)
    (fuel : nat) (self : ResolverClient) (query : Query)
    (cached raise_on_cdname : bool) (tr : Trace) (zone : Name) :
  fst (get_zone_name resolve (S fuel) self query cached raise_on_cdname tr) = Ok zone ->
  exists reply,
    resolve tr (pick self cached) query IN SOA false false = Returns reply /\
    ((exists rr, In rr (answer (response reply)) /\ RRset.rdtype rr = SOA /\
                 RRset.name rr = zone) \/
     (Forall (fun r => RRset.rdtype r <> SOA) (answer (response reply)) /\
      exists first_authority more,
        authority (response reply) = first_authority :: more /\
        RRset.name first_authority = zone)).
Proof.
  intro Hok.
  destruct (not_a_fqdn query) eqn:Hq.
  - simpl in Hok. rewrite Hq in Hok. discriminate.
  - destruct (get_zone_name_cases resolve fuel self query cached raise_on_cdname tr Hq)
      as [(reply & Hr & Hrun) | (e & Hr & Hrun)]; rewrite Hrun in Hok; cbn [fst] in Hok.
    + exists reply. split; [exact Hr|].
      destruct (raise_on_cdname && (0 <? redirects_found reply)); [discriminate|].
      exact (zone_of_reply_ok query reply zone Hok).
    + destruct e; discriminate.
Qed.

Lemma get_zone_name_zone_comes_from_reply_witness :
  exists reply,
    stanford_engine [] (pick client true) (QName www_stanford_edu) IN SOA false false =
      Returns reply /\
    ((exists rr, In rr (answer (response reply)) /\ RRset.rdtype rr = SOA /\
                 RRset.name rr = fastly_net) \/
     (Forall (fun r => RRset.rdtype r <> SOA) (answer (response reply)) /\
      exists first_authority more,
        authority (response reply) = first_authority :: more /\
        RRset.name first_authority = fastly_net)).
Proof.
  apply (get_zone_name_zone_comes_from_reply stanford_engine 0 client
           (QName www_stanford_edu) true false [] fastly_net).
  reflexivity.
Defined.

Lemma first_soa_owner_none_inv (section : list RRset.t) :
  first_soa_owner section = None ->
  Forall (fun r => RRset.rdtype r <> SOA) section.
Proof.
  induction section as [|r more IH]; simpl; intro Hnone.
  - constructor.
  - destruct (RRset.rdtype r) eqn:Ht; simpl in Hnone; try discriminate;
      (constructor; [rewrite Ht; discriminate|exact (IH Hnone)]).
Qed.

(** X4.  [get_zone_name] fails with [ResolverErrorCDName] exactly when
    the query passes the FQDN guard, [raise_on_cdname] is set and the
    reply holds a CNAME or DNAME entry; with the flag unset it never
    fails with that error. *)
Theorem get_zone_name_cdname_error_iff
    (resolve : Trace -> Resolver -> Query -> RdataClass -> RdataType -> bool ->
               bool -> Outcome Answer)
    (fuel : nat) (self : ResolverClient) (query : Query)
    (cached raise_on_cdname : bool) (tr : Trace) :
  (exists asked,
     fst (get_zone_name resolve (S fuel) self query cached raise_on_cdname tr) =
       Err (ResolverErrorCDName asked)) <->
  (not_a_fqdn query = false /\
   raise_on_cdname = true /\
   exists reply,
     resolve tr (pick self cached) query IN SOA false false = Returns reply /\
     0 < count_redirects reply).
Proof.
  split.
  - intros (asked & Herr).
    destruct (not_a_fqdn query) eqn:Hq.
    { simpl in Herr. rewrite Hq in Herr. discriminate. }
    split; [reflexivity|].
    destruct (get_zone_name_cases resolve fuel self query cached raise_on_cdname tr Hq)
      as [(reply & Hr & Hrun) | (e & Hr & Hrun)]; rewrite Hrun in Herr; cbn [fst] in Herr.
    + destruct raise_on_cdname; cbn [andb] in Herr.
      * split; [reflexivity|]. exists reply. split; [exact Hr|].
        rewrite <- redirects_found_count.
        destruct (0 <? redirects_found reply) eqn:Hb.
        -- now apply Nat.ltb_lt.
        -- apply zone_of_reply_errors in Herr as (Hz & _). discriminate.
      * apply zone_of_reply_errors in Herr as (Hz & _). discriminate.
    + destruct e; discriminate.
  - intros (Hq & -> & reply & Hr & Hpos).
    exists (question (response reply)).
    rewrite (get_zone_name_on_reply resolve fuel self query cached true tr reply Hq Hr).
    rewrite redirects_found_count.
    apply Nat.ltb_lt in Hpos. now rewrite Hpos.
Qed.

Lemma get_zone_name_cdname_error_iff_witness :
  (exists asked,
     fst (get_zone_name stanford_engine 1 client (QName www_stanford_edu) true true []) =
       Err (ResolverErrorCDName asked)) /\
  ~ (exists asked,
       fst (get_zone_name stanford_engine 1 client (QName www_stanford_edu) true false []) =
         Err (ResolverErrorCDName asked)).
Proof.
  split.
  - apply (get_zone_name_cdname_error_iff stanford_engine 0 client
             (QName www_stanford_edu) true true []).
    split; [reflexivity|]. split; [reflexivity|].
    exists www_soa_answer. split; [reflexivity|]. vm_compute. lia.
  - intro H.
    apply (get_zone_name_cdname_error_iff stanford_engine 0 client
             (QName www_stanford_edu) true false []) in H.
    destruct H as (_ & Hflag & _). discriminate.
Defined.

(** X5.  Each other failure of [get_zone_name] tells its cause.
    [ValueError] means a [dns.name.Name] that is not absolute, and no
    query.  [ResolverError] means that the engine raised NoNameservers or
    LifetimeTimeout.  [ResolverErrorPermanent] means NXDOMAIN, YXDOMAIN,
    or, for a reply that passed the redirect check, no SOA entry in the
    Answer section and an empty Authority section. *)
Theorem get_zone_name_failure_causes
    (resolve : Trace -> Resolver -> Query -> RdataClass -> RdataType -> bool ->
               bool -> Outcome Answer)
    (fuel : nat) (self : ResolverClient) (query : Query)
    (cached raise_on_cdname : bool) (tr : Trace) :
  let asked := resolve tr (pick self cached) query IN SOA false false in
  let run := get_zone_name resolve (S fuel) self query cached raise_on_cdname tr in
  (forall q, fst run = Err (ValueError q) ->
     q = query /\ snd run = tr /\ exists n, query = QName n /\ is_absolute n = false) /\
  (fst run = Err ResolverError ->
     asked = Raises NoNameservers \/ asked = Raises LifetimeTimeout) /\
  (forall q, fst run = Err (ResolverErrorPermanent (NxdomainFor q)) ->
     q = query /\ asked = Raises NXDOMAIN) /\
  (fst run = Err (ResolverErrorPermanent YxdomainHappened) ->
     asked = Raises YXDOMAIN) /\
  (forall q, fst run = Err (ResolverErrorPermanent (NoSoaReceived q)) ->
     q = query /\
     exists reply,
       asked = Returns reply /\
       (raise_on_cdname = false \/ count_redirects reply = 0) /\
       Forall (fun r => RRset.rdtype r <> SOA) (answer (response reply)) /\
       authority (response reply) = []).
Proof.
  intros asked run.
  destruct (not_a_fqdn query) eqn:Hq.
  - assert (Hrun : run = (Err (ValueError query), tr)).
    { subst run. simpl. now rewrite Hq. }
    rewrite Hrun. cbn [fst snd].
    split; [|repeat split; discriminate].
    intros q [= <-]. repeat split.
    destruct query as [n|s]; [|discriminate].
    exists n. split; [reflexivity|]. simpl in Hq. now destruct (is_absolute n).
  - destruct (get_zone_name_cases resolve fuel self query cached raise_on_cdname tr Hq)
      as [(reply & Hr & Hrun) | (e & Hr & Hrun)];
      fold run in Hrun; fold asked in Hr; rewrite Hrun, Hr; cbn [fst snd].
    + destruct (raise_on_cdname && (0 <? redirects_found reply)) eqn:Hcheck.
      * repeat split; discriminate.
      * assert (Hpass : raise_on_cdname = false \/ count_redirects reply = 0).
        { rewrite <- redirects_found_count.
          destruct raise_on_cdname; [right|now left].
          cbn [andb] in Hcheck. apply Nat.ltb_ge in Hcheck. lia. }
        split; [intros q Hz; apply zone_of_reply_errors in Hz as (Hz & _); discriminate|].
        split; [intros Hz; apply zone_of_reply_errors in Hz as (Hz & _); discriminate|].
        split; [intros q Hz; apply zone_of_reply_errors in Hz as (Hz & _); discriminate|].
        split; [intros Hz; apply zone_of_reply_errors in Hz as (Hz & _); discriminate|].
        intros q Hz. apply zone_of_reply_errors in Hz as (Hz & Hnone & Hauth).
        injection Hz as <-. split; [reflexivity|].
        exists reply. split; [reflexivity|]. split; [exact Hpass|].
        split; [exact (first_soa_owner_none_inv _ Hnone)|exact Hauth].
    + destruct e; repeat split; try discriminate; auto; congruence.
Qed.

Lemma get_zone_name_failure_causes_witness :
  (exists n, QName www_relative = QName n /\ is_absolute n = false) /\
  (failing_engine LifetimeTimeout [] (pick client true) (QName stanford_edu)
     IN SOA false false = Raises NoNameservers \/
   failing_engine LifetimeTimeout [] (pick client true) (QName stanford_edu)
     IN SOA false false = Raises LifetimeTimeout) /\
  stanford_engine [] (pick client true) (QName fastly_net) IN SOA false false =
    Raises NXDOMAIN.
Proof.
  destruct (get_zone_name_failure_causes stanford_engine 0 client
              (QName www_relative) true true []) as (Hvalue & _).
  destruct (get_zone_name_failure_causes (failing_engine LifetimeTimeout) 0 client
              (QName stanford_edu) true true []) as (_ & Hretry & _).
  destruct (get_zone_name_failure_causes stanford_engine 0 client
              (QName fastly_net) true true []) as (_ & _ & Hnx & _).
  split; [|split].
  - apply (Hvalue (QName www_relative)). reflexivity.
  - apply Hretry. reflexivity.
  - apply (Hnx (QName fastly_net)). reflexivity.
Defined.

(** ** Further properties of the TXT lookup *)

Lemma strings_of_all_txt (items : list Rdata) (tuples : list (list bytes)) :
  map_result strings_of items = Ok tuples -> items = map RdTXT tuples.
Proof.
  revert tuples. induction items as [|x more IH]; intros tuples; cbn [map_result].
  - now intros [= <-].
  - destruct x as [a|t|m r s|strs]; cbn [strings_of]; try discriminate.
    destruct (map_result strings_of more) as [ts| |]; try discriminate.
    intros [= <-]. cbn [map]. now rewrite (IH ts eq_refl).
Qed.

Lemma strings_of_fails_with_attribute_error (items : list Rdata) (e : Exn) :
  map_result strings_of items = Err e -> e = AttributeError.
Proof.
  induction items as [|x more IH]; cbn [map_result]; [discriminate|].
  destruct x as [a|t|m r s|strs]; cbn [strings_of]; try (now intros [= <-]).
  destruct (map_result strings_of more) as [ts|e'|]; try discriminate.
  intros [= <-]. now apply IH.
Qed.

Lemma collapse_gives_back (strs : list bytes) (e : TextEntry) :
  collapse strs = Ok e ->
  entry_strings e = strs /\
  match e with
  | Single _ => True
  | Multi l => 2 <= List.length l
  end.
Proof.
  destruct strs as [|s [|s' more]]; cbn; try discriminate; intros [= <-]; cbn.
  - now split.
  - split; [reflexivity|lia].
Qed.

Lemma collapse_all_give_back (tuples : list (list bytes)) (entries : list TextEntry) :
  map_result collapse tuples = Ok entries ->
  map entry_strings entries = tuples /\
  Forall (fun e => match e with
                   | Single _ => True
                   | Multi l => 2 <= List.length l
                   end) entries.
Proof.
  revert entries. induction tuples as [|strs more IH]; intros entries; cbn [map_result].
  - intros [= <-]. split; [reflexivity|constructor].
  - destruct (collapse strs) as [e| |] eqn:He; try discriminate.
    destruct (map_result collapse more) as [es| |]; try discriminate.
    intros [= <-]. destruct (collapse_gives_back strs e He) as (Hback & Hshape).
    destruct (IH es eq_refl) as (Hmap & Hall).
    split; [cbn [map]; now rewrite Hback, Hmap|now constructor].
Qed.

Lemma collapse_all_fail_with_index_error (tuples : list (list bytes)) (e : Exn) :
  map_result collapse tuples = Err e -> e = IndexError.
Proof.
  induction tuples as [|strs more IH]; cbn [map_result]; [discriminate|].
  destruct (collapse strs) as [x|e'|] eqn:He.
  - destruct (map_result collapse more) as [es|e'|]; try discriminate.
    intros [= <-]. now apply IH.
  - intros [= <-]. exact (collapse_fails_only_with_index_error strs e' He).
  - discriminate.
Qed.

Lemma decode_rrset_errors (rr : RRset.t) (e : Exn) :
  decode_rrset rr = Err e -> e = AttributeError \/ e = IndexError.
Proof.
  unfold decode_rrset.
  destruct (map_result strings_of (RRset.items rr)) as [tuples|e'|] eqn:Hs.
  - intro Hc. right. exact (collapse_all_fail_with_index_error tuples e Hc).
  - intros [= <-]. left. exact (strings_of_fails_with_attribute_error _ e' Hs).
  - discriminate.
Qed.

Lemma decode_rrset_gives_back (rr : RRset.t) (entries : list TextEntry) :
  decode_rrset rr = Ok entries ->
  map RdTXT (map entry_strings entries) = RRset.items rr /\
  entries <> [] /\
  Forall (fun e => match e with
                   | Single _ => True
                   | Multi l => 2 <= List.length l
                   end) entries.
Proof.
  unfold decode_rrset. intro Hok.
  destruct (map_result strings_of (RRset.items rr)) as [tuples| |] eqn:Hs;
    try discriminate.
  apply strings_of_all_txt in Hs.
  destruct (collapse_all_give_back tuples entries Hok) as (Hback & Hshape).
  split; [now rewrite Hback|].
  split; [|exact Hshape].
  intros ->. cbn in Hback. subst tuples. discriminate.
Qed.

Section TxtFacts.

Variable resolve :
  Trace -> Resolver -> Query -> RdataClass -> RdataType -> bool -> bool ->
  Outcome Answer.

Lemma get_txt_on_failure (self : ResolverClient) (query : Query)
    (cached search raise_on_cdname : bool) (tr : Trace) (e : DnsException) :
  resolve tr (pick self cached) query IN TXT search false = Raises e ->
  get_txt resolve self query cached search raise_on_cdname tr =
    (match e with
     | NXDOMAIN => Ok []
     | NoNameservers | LifetimeTimeout => Err ResolverError
     | YXDOMAIN => Err (ResolverErrorPermanent YxdomainHappened)
     | NoAnswer => Err (Uncaught NoAnswer)
     end,
     tr ++ [txt_query self cached query search]).
Proof.
  intro Hr. unfold get_txt, do_resolve, txt_query. rewrite Hr. now destruct e.
Qed.

Lemma get_txt_sends_one_query (self : ResolverClient) (query : Query)
    (cached search raise_on_cdname : bool) (tr : Trace) :
  snd (get_txt resolve self query cached search raise_on_cdname tr) =
    tr ++ [txt_query self cached query search].
Proof.
  destruct (resolve tr (pick self cached) query IN TXT search false) as [reply|e] eqn:Hr.
  - now rewrite (get_txt_on_reply resolve self query cached search raise_on_cdname
                   tr reply Hr).
  - now rewrite (get_txt_on_failure self query cached search raise_on_cdname tr e Hr).
Qed.

End TxtFacts.

(** X6.  [get_txt] fails with [ResolverErrorCDName] exactly when
    [raise_on_cdname] is set and the Answer section of the reply holds a
    CNAME or DNAME entry, whatever TXT records the reply holds; the error
    then carries the question of the reply. *)
Theorem get_txt_cdname_error_iff
    (resolve : Trace -> Resolver -> Query -> RdataClass -> RdataType -> bool ->
               bool -> Outcome Answer)
    (self : ResolverClient) (query : Query)
    (cached search raise_on_cdname : bool) (tr : Trace) (asked : list Question.t) :
  fst (get_txt resolve self query cached search raise_on_cdname tr) =
    Err (ResolverErrorCDName asked) <->
  (raise_on_cdname = true /\
   exists reply,
     resolve tr (pick self cached) query IN TXT search false = Returns reply /\
     0 < count_redirects reply /\
     asked = question (response reply)).
Proof.
  split.
  - intro Herr.
    destruct (resolve tr (pick self cached) query IN TXT search false) as [reply|e] eqn:Hr.
    + rewrite (get_txt_on_reply resolve self query cached search raise_on_cdname
                 tr reply Hr) in Herr.
      cbn [fst] in Herr. unfold _check_has_cdname in Herr.
      rewrite redirects_found_count in Herr.
      destruct (0 <? count_redirects reply) eqn:Hb.
      * destruct raise_on_cdname.
        -- injection Herr as <-. split; [reflexivity|]. exists reply.
           split; [reflexivity|]. split; [now apply Nat.ltb_lt|reflexivity].
        -- destruct (rrset reply) as [rr|]; [|discriminate].
           apply decode_rrset_errors in Herr as [H | H]; discriminate.
      * destruct (rrset reply) as [rr|]; [|discriminate].
        apply decode_rrset_errors in Herr as [H | H]; discriminate.
    + rewrite (get_txt_on_failure resolve self query cached search raise_on_cdname
                 tr e Hr) in Herr.
      destruct e; discriminate.
  - intros (-> & reply & Hr & Hpos & ->).
    rewrite (get_txt_on_reply resolve self query cached search true tr reply Hr).
    unfold _check_has_cdname. rewrite redirects_found_count.
    apply Nat.ltb_lt in Hpos. now rewrite Hpos.
Qed.

Lemma get_txt_cdname_error_iff_witness :
  fst (get_txt (constant_engine www_txt_no_data) client (QName www_stanford_edu)
         true true true []) =
    Err (ResolverErrorCDName [Question.mk www_stanford_edu TXT]).
Proof.
  apply (get_txt_cdname_error_iff (constant_engine www_txt_no_data) client
           (QName www_stanford_edu) true true true []
           [Question.mk www_stanford_edu TXT]).
  split; [reflexivity|]. exists www_txt_no_data.
  split; [reflexivity|]. split; [vm_compute; lia|reflexivity].
Defined.

(** X7.  The entries that [get_txt] returns give the records back: for a
    reply with an RRset, reading [Single s] as the one string [s] and
    [Multi l] as the strings [l] yields the payloads of the RRset, in
    order.  There is at least one entry, and every [Multi] holds at least
    two strings. *)
Theorem get_txt_entries_give_back_records
    (resolve : Trace -> Resolver -> Query -> RdataClass -> RdataType -> bool ->
               bool -> Outcome Answer)
    (self : ResolverClient) (query : Query)
    (cached search raise_on_cdname : bool) (tr : Trace) (reply : Answer)
    (rr : RRset.t) (entries : list TextEntry) :
  resolve tr (pick self cached) query IN TXT search false = Returns reply ->
  rrset reply = Some rr ->
  fst (get_txt resolve self query cached search raise_on_cdname tr) = Ok entries ->
  map RdTXT (map entry_strings entries) = RRset.items rr /\
  entries <> [] /\
  Forall (fun e => match e with
                   | Single _ => True
                   | Multi l => 2 <= List.length l
                   end) entries.
Proof.
  intros Hr Hrr Hok.
  rewrite (get_txt_on_reply resolve self query cached search raise_on_cdname
             tr reply Hr), Hrr in Hok.
  cbn [fst] in Hok.
  destruct (_check_has_cdname reply raise_on_cdname); try discriminate.
  exact (decode_rrset_gives_back rr entries Hok).
Qed.

Lemma get_txt_entries_give_back_records_witness :
  map RdTXT (map entry_strings [Single (ascii_bytes "v=spf1 -all"); Multi abc_record]) =
    RRset.items (txt_rrset stanford_edu spf_record [abc_record]).
Proof.
  apply (get_txt_entries_give_back_records (constant_engine txt_reply) client
           (QName stanford_edu) true true true [] txt_reply
           (txt_rrset stanford_edu spf_record [abc_record])
           [Single (ascii_bytes "v=spf1 -all"); Multi abc_record]);
    reflexivity.
Defined.

(** ** Construction and lookups together *)

(** X8.  After [__init__], every lookup with [cached] unset goes out on
    the second resolver as it was constructed, with none of the settings
    of the constructor; every lookup with [cached] set goes out on the
    resolver with the cache, SERVFAIL retries and the lifetime
    [RESOLVER_TIMEOUT].  Each of [get_ip] and [get_txt] sends exactly one
    query, and so does [get_zone_name] on a query that passes its guard. *)
Theorem lookups_after_init
    (resolve : Trace -> Resolver -> Query -> RdataClass -> RdataType -> bool ->
               bool -> Outcome Answer)
    (resolve_name : Trace -> Resolver -> Query -> AddressFamily -> bool ->
                    Outcome HostAnswers)
    (fresh1 fresh2 : Resolver) (fuel : nat) (query : Query)
    (cached ipv6 search raise_on_cdname : bool) (tr : Trace) :
  let self := __init__ fresh1 fresh2 in
  let used :=
    if cached then mkResolver (Some (mkCache 300)) true 10 else fresh2 in
  snd (get_ip resolve_name self query cached ipv6 search tr) =
    tr ++ [resolve_name_call used query (if ipv6 then AF_UNSPEC else AF_INET) search] /\
  snd (get_txt resolve self query cached search raise_on_cdname tr) =
    tr ++ [resolve_call used query IN TXT search false] /\
  (not_a_fqdn query = false ->
   snd (get_zone_name resolve (S fuel) self query cached raise_on_cdname tr) =
     tr ++ [resolve_call used query IN SOA false false]).
Proof.
  intros self used.
  assert (Hused : pick self cached = used) by now destruct cached.
  split; [|split].
  - rewrite get_ip_on_outcome. cbn [snd]. unfold ip_query. now rewrite Hused.
  - rewrite get_txt_sends_one_query. unfold txt_query. now rewrite Hused.
  - intro Hq.
    destruct (get_zone_name_cases resolve fuel self query cached raise_on_cdname tr Hq)
      as [(reply & _ & Hrun) | (e & _ & Hrun)];
      rewrite Hrun; cbn [snd]; unfold soa_query; now rewrite Hused.
Qed.

Lemma lookups_after_init_witness :
  snd (get_zone_name stanford_engine 1 client (QName www_stanford_edu) false true []) =
    [resolve_call dnspython_fresh (QName www_stanford_edu) IN SOA false false] /\
  snd (get_zone_name stanford_engine 1 client (QName www_stanford_edu) true true []) =
    [resolve_call (mkResolver (Some (mkCache 300)) true 10)
       (QName www_stanford_edu) IN SOA false false].
Proof.
  destruct (lookups_after_init stanford_engine
              (constant_name_engine (Raises NXDOMAIN)) dnspython_fresh dnspython_fresh
              0 (QName www_stanford_edu) false true true true [])
    as (_ & _ & Huncached).
  destruct (lookups_after_init stanford_engine
              (constant_name_engine (Raises NXDOMAIN)) dnspython_fresh dnspython_fresh
              0 (QName www_stanford_edu) true true true true [])
    as (_ & _ & Hcached).
  split.
  - apply Huncached. reflexivity.
  - apply Hcached. reflexivity.
Defined.

(** ** The older [get_ip] *)

(** X9.  On an engine that answers alike whatever lifetime it is given,
    the older [get_ip] returns what the current [get_ip] returns and
    sends the same lookup; the one difference is that the older one
    passes the lifetime [RESOLVER_TIMEOUT] with every lookup, on the
    cached and on the uncached resolver. *)
Theorem older_get_ip_agrees
    (older : Legacy.Trace -> Resolver -> Query -> AddressFamily -> bool -> Z ->
             Outcome HostAnswers)
    (current : Trace -> Resolver -> Query -> AddressFamily -> bool ->
               Outcome HostAnswers)
    (self : ResolverClient) (query : Query) (cached ipv6 search : bool)
    (tr : Legacy.Trace) :
  (forall tr0 r q f s,
     older tr0 r q f s RESOLVER_TIMEOUT = current (map forget_lifetime tr0) r q f s) ->
  let before := Legacy.get_ip older self query cached ipv6 search tr in
  let now_ := get_ip current self query cached ipv6 search (map forget_lifetime tr) in
  fst before = fst now_ /\
  map forget_lifetime (snd before) = snd now_ /\
  snd before =
    tr ++ [Legacy.resolve_name_call (pick self cached) query
             (if ipv6 then AF_UNSPEC else AF_INET) search 10].
Proof.
  intros Hsame before now_. subst before now_.
  rewrite get_ip_on_outcome. unfold Legacy.get_ip. rewrite Hsame.
  destruct (current (map forget_lifetime tr) (pick self cached) query
              (if ipv6 then AF_UNSPEC else AF_INET) search) as [answers|[]];
    cbn [fst snd]; rewrite ?map_app; repeat split.
Qed.

Lemma older_get_ip_agrees_witness :
  let older := ignoring_lifetime (constant_name_engine (Returns v6_first_addresses)) in
  fst (Legacy.get_ip older (Legacy.__init__ dnspython_fresh dnspython_fresh)
         (QStr "localhost") false true true []) =
    Ok ["::1"; "::2"; "1.1.1.1"]%string /\
  snd (Legacy.get_ip older (Legacy.__init__ dnspython_fresh dnspython_fresh)
         (QStr "localhost") false true true []) =
    [Legacy.resolve_name_call dnspython_fresh (QStr "localhost") AF_UNSPEC true 10].
Proof.
  intro older.
  destruct (older_get_ip_agrees older
              (constant_name_engine (Returns v6_first_addresses))
              (Legacy.__init__ dnspython_fresh dnspython_fresh)
              (QStr "localhost") false true true [])
    as (Hresult & _ & Hsent).
  - reflexivity.
  - split; [exact Hresult|exact Hsent].
Defined.

(** ** The outcomes of [get_ip] *)

(** X10.  What [get_ip] gives tells what the engine did.  It fails with
    [ResolverError] exactly when the engine raised NoNameservers or
    LifetimeTimeout, and with [ResolverErrorPermanent] exactly when the
    engine raised YXDOMAIN.  It returns a list exactly when the engine
    returned addresses, and then that list, or raised NXDOMAIN or
    NoAnswer, and then the empty list. *)
Theorem get_ip_outcome_causes
    (resolve_name : Trace -> Resolver -> Query -> AddressFamily -> bool ->
                    Outcome HostAnswers)
    (self : ResolverClient) (query : Query) (cached ipv6 search : bool)
    (tr : Trace) :
  let asked :=
    resolve_name tr (pick self cached) query (if ipv6 then AF_UNSPEC else AF_INET) search in
  let run := get_ip resolve_name self query cached ipv6 search tr in
  (fst run = Err ResolverError <->
   asked = Raises NoNameservers \/ asked = Raises LifetimeTimeout) /\
  (forall why, fst run = Err (ResolverErrorPermanent why) <->
   why = YxdomainHappened /\ asked = Raises YXDOMAIN) /\
  (forall l, fst run = Ok l <->
   (exists answers, asked = Returns answers /\ l = addresses answers) \/
   (l = [] /\ (asked = Raises NXDOMAIN \/ asked = Raises NoAnswer))).
Proof.
  intros asked run. subst run. rewrite get_ip_on_outcome. fold asked. cbn [fst].
  destruct asked as [answers|e].
  - split; [|split].
    + split; [discriminate|intros [H | H]; discriminate].
    + intro why. split; [discriminate|intros (_ & H); discriminate].
    + intro l. split.
      * intros [= <-]. left. now exists answers.
      * intros [(answers' & [= <-] & ->) | (_ & [H | H])];
          [reflexivity|discriminate|discriminate].
  - split; [|split].
    + split.
      * destruct e; try discriminate; auto.
      * intros [[= ->] | [= ->]]; reflexivity.
    + intro why. split.
      * destruct e; try discriminate. intros [= <-]. now split.
      * intros (-> & [= ->]). reflexivity.
    + intro l. split.
      * destruct e; try discriminate; intros [= <-]; right; auto.
      * intros [(answers' & H & _) | (-> & [[= ->] | [= ->]])];
          [discriminate|reflexivity|reflexivity].
Qed.

Lemma get_ip_outcome_causes_witness :
  let asked e :=
    constant_name_engine (Raises e) [] (pick client true) (QStr "localhost")
      AF_UNSPEC true in
  (asked LifetimeTimeout = Raises NoNameservers \/
   asked LifetimeTimeout = Raises LifetimeTimeout) /\
  fst (get_ip (constant_name_engine (Raises NoAnswer)) client (QStr "localhost")
         true true true []) = Ok [].
Proof.
  intro asked.
  destruct (get_ip_outcome_causes (constant_name_engine (Raises LifetimeTimeout))
              client (QStr "localhost") true true true []) as ((Hretry & _) & _).
  destruct (get_ip_outcome_causes (constant_name_engine (Raises NoAnswer))
              client (QStr "localhost") true true true []) as (_ & _ & Hlist).
  split.
  - apply Hretry. reflexivity.
  - apply (Hlist []). right. split; [reflexivity|]. right. reflexivity.
Defined.

(** ** The outcomes of [get_txt] *)

(** X11.  [get_txt] returns the empty list exactly when the engine
    raised NXDOMAIN, or returned a reply without RRset that passed the
    redirect check: a reply with an RRset never gives the empty list.  It
    fails with [ResolverError] exactly when the engine raised
    NoNameservers or LifetimeTimeout, and with [ResolverErrorPermanent]
    exactly when the engine raised YXDOMAIN. *)
Theorem get_txt_outcome_causes
    (resolve : Trace -> Resolver -> Query -> RdataClass -> RdataType -> bool ->
               bool -> Outcome Answer)
    (self : ResolverClient) (query : Query)
    (cached search raise_on_cdname : bool) (tr : Trace) :
  let asked := resolve tr (pick self cached) query IN TXT search false in
  let run := get_txt resolve self query cached search raise_on_cdname tr in
  (fst run = Ok [] <->
   asked = Raises NXDOMAIN \/
   exists reply,
     asked = Returns reply /\ rrset reply = None /\
     (raise_on_cdname = false \/ count_redirects reply = 0)) /\
  (fst run = Err ResolverError <->
   asked = Raises NoNameservers \/ asked = Raises LifetimeTimeout) /\
  (forall why, fst run = Err (ResolverErrorPermanent why) <->
   why = YxdomainHappened /\ asked = Raises YXDOMAIN).
Proof.
  intros asked run.
  destruct asked as [reply|e] eqn:Hr; subst asked.
  - assert (Hrun : fst run =
                   match _check_has_cdname reply raise_on_cdname with
                   | Ok _ =>
                       match rrset reply with
                       | None => Ok []
                       | Some rr => decode_rrset rr
                       end
                   | Err e => Err e
                   | OutOfFuel => OutOfFuel
                   end).
    { subst run.
      now rewrite (get_txt_on_reply resolve self query cached search raise_on_cdname
                     tr reply Hr). }
    assert (Hcheck : forall e, _check_has_cdname reply raise_on_cdname = Err e ->
                               e = ResolverErrorCDName (question (response reply))).
    { intro e. unfold _check_has_cdname.
      destruct (0 <? redirects_found reply); [|discriminate].
      destruct raise_on_cdname; [|discriminate]. now intros [= <-]. }
    assert (Hpass : forall flag, _check_has_cdname reply raise_on_cdname = Ok flag ->
                                 raise_on_cdname = false \/ count_redirects reply = 0).
    { intro flag. unfold _check_has_cdname. rewrite redirects_found_count.
      destruct (0 <? count_redirects reply) eqn:Hb.
      - destruct raise_on_cdname; [discriminate|now left].
      - intros _. right. apply Nat.ltb_ge in Hb. lia. }
    rewrite Hrun. split; [|split].
    + split.
      * intro Hok. right. exists reply. split; [reflexivity|].
        destruct (_check_has_cdname reply raise_on_cdname) as [flag|e|] eqn:Hc;
          try discriminate.
        split; [|exact (Hpass flag eq_refl)].
        destruct (rrset reply) as [rr|] eqn:Hrr; [|reflexivity].
        exfalso.
        destruct (decode_rrset_gives_back rr [] Hok) as (_ & Hne & _).
        now apply Hne.
      * intros [H | (reply' & [= <-] & Hnone & Hok)]; [discriminate|].
        now rewrite (check_has_cdname_passes reply raise_on_cdname Hok), Hnone.
    + split; [|intros [H | H]; discriminate].
      destruct (_check_has_cdname reply raise_on_cdname) as [flag|e|] eqn:Hc.
      * destruct (rrset reply) as [rr|]; [|discriminate].
        intro He. apply decode_rrset_errors in He as [H | H]; discriminate.
      * intros [= ->]. specialize (Hcheck _ eq_refl). discriminate.
      * discriminate.
    + intro why. split; [|intros (_ & H); discriminate].
      destruct (_check_has_cdname reply raise_on_cdname) as [flag|e|] eqn:Hc.
      * destruct (rrset reply) as [rr|]; [|discriminate].
        intro He. apply decode_rrset_errors in He as [H | H]; discriminate.
      * intros [= ->]. specialize (Hcheck _ eq_refl). discriminate.
      * discriminate.
  - subst run.
    rewrite (get_txt_on_failure resolve self query cached search raise_on_cdname tr e Hr).
    cbn [fst]. split; [|split].
    + split.
      * destruct e; try discriminate. now left.
      * intros [[= ->] | (reply & H & _)]; [reflexivity|discriminate].
    + split.
      * destruct e; try discriminate; auto.
      * intros [[= ->] | [= ->]]; reflexivity.
    + intro why. split.
      * destruct e; try discriminate. intros [= <-]. now split.
      * intros (-> & [= ->]). reflexivity.
Qed.

Lemma get_txt_outcome_causes_witness :
  fst (get_txt (constant_engine txt_no_data) client (QName stanford_edu)
         true true true []) = Ok [] /\
  (failing_engine NoNameservers [] (pick client true) (QName stanford_edu) IN TXT
     true false = Raises NoNameservers \/
   failing_engine NoNameservers [] (pick client true) (QName stanford_edu) IN TXT
     true false = Raises LifetimeTimeout).
Proof.
  destruct (get_txt_outcome_causes (constant_engine txt_no_data) client
              (QName stanford_edu) true true true []) as ((_ & Hempty) & _).
  destruct (get_txt_outcome_causes (failing_engine NoNameservers) client
              (QName stanford_edu) true true true []) as (_ & (Hretry & _) & _).
  split.
  - apply Hempty. right. exists txt_no_data.
    split; [reflexivity|]. split; [reflexivity|]. right. reflexivity.
  - apply Hretry. reflexivity.
Defined.
